(** * job_listing: the job-board filter widget of [src/js/jobs.js]

    A shallow embedding of the script and the properties of its filter
    state, its two renderers and its data loader.

    Conventions of the embedding.
    - A JavaScript string is the sequence of bytes of its UTF-8 encoding
      ([string]); iterating a string yields its code points.
    - A JavaScript value is a parsed JSON value or [undefined] ([value]).
      JSON numbers are IEEE doubles: their type, printing, truthiness and
      SameValueZero test are parameters of the development.
    - A computation that may raise is a [result]; a function that reads or
      writes the globals or the page is a state transformer [M].
    - A [Set] is the list of its elements in insertion order.
    - The page has the elements [#job-listings], [#filter-bar],
      [#filter-tags] and [#clear-filters] the script looks up. *)

From Stdlib Require Import String Ascii List Bool Arith DecimalString.
Import ListNotations.
Local Open Scope list_scope.
Local Open Scope string_scope.

(** ** Strings and markup literals *)

Definition dq : ascii := "034"%char.
Definition apostrophe : ascii := "039"%char.
Definition amp : ascii := "038"%char.
Definition langle : ascii := "060"%char.
Definition rangle : ascii := "062"%char.
Definition nul : ascii := "000"%char.
Definition cr : ascii := "013"%char.
Definition lf : ascii := "010"%char.

(** The line break inside a template literal. *)
Definition nl : string := String lf EmptyString.

(** The markup literals below are written with an apostrophe wherever the
    script has a double quote (no literal of the script contains an
    apostrophe); [lit] puts the double quotes back. *)
Fixpoint lit (s : string) : string :=
  match s with
  | EmptyString => EmptyString
  | String c t => String (if Ascii.eqb c apostrophe then dq else c) (lit t)
  end.

(** U+00B7 MIDDLE DOT, bytes C2 B7. *)
Definition middle_dot : string :=
  String "194"%char (String "183"%char EmptyString).

(** [Array.prototype.join('')] on an array of strings. *)
Definition join_empty (l : list string) : string :=
  fold_right append EmptyString l.

(** A byte [10xxxxxx] continues the code point begun before it. *)
Definition is_continuation (c : ascii) : bool :=
  let n := nat_of_ascii c in ((128 <=? n)%nat && (n <? 192)%nat)%bool.

Definition starts_with_continuation (s : string) : bool :=
  match s with
  | EmptyString => false
  | String c _ => is_continuation c
  end.

(** The code points of a string, each as a string: what the string
    iterator yields. *)
Fixpoint code_points (s : string) : list string :=
  match s with
  | EmptyString => []
  | String c t =>
      match code_points t with
      | p :: ps =>
          if starts_with_continuation p then String c p :: ps
          else String c EmptyString :: p :: ps
      | [] => [String c EmptyString]
      end
  end.

(** ** The markup as the browser reads it

    What the page holds once the script has assigned markup to
    [innerHTML]: the start tags of the markup with their attributes, as
    the HTML tokenizer emits them (the states of the standard from the
    data state to the self-closing start tag state, with the parse errors
    it recovers from: a repeated attribute is dropped, a quote or [<]
    inside a name is part of the name, and so on).

    Outside the model, and reported as such rather than guessed:
    comments and declarations ([<!], [<?], a [</] not followed by a letter
    or [>]); character references, NUL and carriage returns inside an
    attribute value, and NUL inside a name, all of which the tokenizer
    rewrites; and every element other than the ordinary ones the script's
    templates use, since the tree builder treats the others in ways of
    their own (raw text, formatting elements that are reopened, table
    parts that are ignored).  The containers the script writes to are
    taken to be ordinary flow containers.  Text between tags does not
    matter to the tags and is not kept. *)

Definition tab : ascii := "009"%char.
Definition ff : ascii := "012"%char.
Definition space : ascii := "032"%char.
Definition slash : ascii := "047"%char.
Definition equals : ascii := "061"%char.
Definition bang : ascii := "033"%char.
Definition question : ascii := "063"%char.

(** ASCII whitespace.  The input stream has carriage returns turned into
    line feeds before the tokenizer sees it, so that a carriage return
    outside an attribute value is whitespace too. *)
Definition is_space (c : ascii) : bool :=
  Ascii.eqb c tab || Ascii.eqb c lf || Ascii.eqb c ff || Ascii.eqb c cr
  || Ascii.eqb c space.

Definition is_upper (c : ascii) : bool :=
  let n := nat_of_ascii c in ((65 <=? n)%nat && (n <=? 90)%nat)%bool.

Definition is_alpha (c : ascii) : bool :=
  let n := nat_of_ascii c in
  (is_upper c || ((97 <=? n)%nat && (n <=? 122)%nat))%bool.

Definition lower (c : ascii) : ascii :=
  if is_upper c then ascii_of_nat (nat_of_ascii c + 32) else c.

Definition snoc (s : string) (c : ascii) : string := s ++ String c EmptyString.

(** The characters the tokenizer rewrites inside an attribute value. *)
Definition rewritten_in_attribute (c : ascii) : bool :=
  Ascii.eqb c amp || Ascii.eqb c nul || Ascii.eqb c cr.

(** A tag token under construction: start or end tag, name, and the
    attributes completed so far, in order. *)
Record tag_token : Type := mkToken {
  is_end : bool;
  tag_name : string;
  attributes : list (string * string)
}.

Fixpoint attr (name : string) (attrs : list (string * string))
  : option string :=
  match attrs with
  | [] => None
  | (k, v) :: t => if String.eqb k name then Some v else attr name t
  end.

(** A completed attribute joins the token unless the token has one of
    that name already. *)
Definition add_attribute (t : tag_token) (name value : string) : tag_token :=
  match attr name (attributes t) with
  | Some _ => t
  | None => mkToken (is_end t) (tag_name t) (attributes t ++ [(name, value)])
  end.

(** The states of the tokenizer, with the token, the attribute name and
    the attribute value being read. *)
Inductive tokenizer : Type :=
| Data
| TagOpen
| EndTagOpen
| TagName (t : tag_token)
| BeforeAttributeName (t : tag_token)
| AttributeName (t : tag_token) (name : string)
| AfterAttributeName (t : tag_token) (name : string)
| BeforeAttributeValue (t : tag_token) (name : string)
| ValueDoubleQuoted (t : tag_token) (name value : string)
| ValueSingleQuoted (t : tag_token) (name value : string)
| ValueUnquoted (t : tag_token) (name value : string)
| AfterValueQuoted (t : tag_token)
| SelfClosingStartTag (t : tag_token).

(** What one character does: a new state, a tag token emitted (the
    tokenizer is then in the data state), or a step outside the model. *)
Inductive step_result : Type :=
| Next (state : tokenizer)
| Emit (t : tag_token)
| Stop.

(** The before attribute name state, which several states hand their
    character to. *)
Definition start_attribute (t : tag_token) (c : ascii) : step_result :=
  if is_space c then Next (BeforeAttributeName t)
  else if Ascii.eqb c slash then Next (SelfClosingStartTag t)
  else if Ascii.eqb c rangle then Emit t
  else if Ascii.eqb c nul then Stop
  else Next (AttributeName t (String (lower c) EmptyString)).

Definition step (state : tokenizer) (c : ascii) : step_result :=
  match state with
  | Data => if Ascii.eqb c langle then Next TagOpen else Next Data
  | TagOpen =>
      if Ascii.eqb c bang then Stop
      else if Ascii.eqb c question then Stop
      else if Ascii.eqb c slash then Next EndTagOpen
      else if is_alpha c then
        Next (TagName (mkToken false (String (lower c) EmptyString) []))
      else if Ascii.eqb c langle then Next TagOpen
      else Next Data
  | EndTagOpen =>
      if is_alpha c then
        Next (TagName (mkToken true (String (lower c) EmptyString) []))
      else if Ascii.eqb c rangle then Next Data
      else Stop
  | TagName t =>
      if is_space c then Next (BeforeAttributeName t)
      else if Ascii.eqb c slash then Next (SelfClosingStartTag t)
      else if Ascii.eqb c rangle then Emit t
      else if Ascii.eqb c nul then Stop
      else Next (TagName (mkToken (is_end t) (snoc (tag_name t) (lower c))
                                  (attributes t)))
  | BeforeAttributeName t => start_attribute t c
  | AttributeName t name =>
      if is_space c then Next (AfterAttributeName t name)
      else if Ascii.eqb c slash then
        Next (SelfClosingStartTag (add_attribute t name EmptyString))
      else if Ascii.eqb c rangle then Emit (add_attribute t name EmptyString)
      else if Ascii.eqb c equals then Next (BeforeAttributeValue t name)
      else if Ascii.eqb c nul then Stop
      else Next (AttributeName t (snoc name (lower c)))
  | AfterAttributeName t name =>
      if is_space c then Next (AfterAttributeName t name)
      else if Ascii.eqb c equals then Next (BeforeAttributeValue t name)
      else start_attribute (add_attribute t name EmptyString) c
  | BeforeAttributeValue t name =>
      if is_space c then Next (BeforeAttributeValue t name)
      else if Ascii.eqb c dq then Next (ValueDoubleQuoted t name EmptyString)
      else if Ascii.eqb c apostrophe then
        Next (ValueSingleQuoted t name EmptyString)
      else if Ascii.eqb c rangle then Emit (add_attribute t name EmptyString)
      else if rewritten_in_attribute c then Stop
      else Next (ValueUnquoted t name (String c EmptyString))
  | ValueDoubleQuoted t name value =>
      if Ascii.eqb c dq then Next (AfterValueQuoted (add_attribute t name value))
      else if rewritten_in_attribute c then Stop
      else Next (ValueDoubleQuoted t name (snoc value c))
  | ValueSingleQuoted t name value =>
      if Ascii.eqb c apostrophe then
        Next (AfterValueQuoted (add_attribute t name value))
      else if rewritten_in_attribute c then Stop
      else Next (ValueSingleQuoted t name (snoc value c))
  | ValueUnquoted t name value =>
      if is_space c then Next (BeforeAttributeName (add_attribute t name value))
      else if Ascii.eqb c rangle then Emit (add_attribute t name value)
      else if rewritten_in_attribute c then Stop
      else Next (ValueUnquoted t name (snoc value c))
  | AfterValueQuoted t => start_attribute t c
  | SelfClosingStartTag t => start_attribute t c
  end.



(** The elements of the script's templates that the tree builder inserts
    as they come, one element for one start tag. *)
Definition modelled_elements : list string :=
  ["span"; "button"; "div"; "img"; "h4"; "h5"; "hr"].

Definition modelled (name : string) : bool :=
  existsb (String.eqb name) modelled_elements.



(** All the start tags of the markup, when all of it is in the model. *)
Fixpoint start_tags (state : tokenizer) (s : string)
  : option (list (list (string * string))) :=
  match s with
  | EmptyString => Some []
  | String c rest =>
      match step state c with
      | Stop => None
      | Next state' => start_tags state' rest
      | Emit t =>
          if modelled (tag_name t) then
            if is_end t then start_tags Data rest
            else option_map (cons (attributes t)) (start_tags Data rest)
          else None
      end
  end.

(** The tokens of a [class] attribute. *)
Fixpoint class_tokens_from (s : string) : string * list string :=
  match s with
  | EmptyString => (EmptyString, [])
  | String c t =>
      let (word, others) := class_tokens_from t in
      if is_space c then
        (EmptyString,
         if String.eqb word EmptyString then others else word :: others)
      else (String c word, others)
  end.

Definition class_tokens (s : string) : list string :=
  let (word, others) := class_tokens_from s in
  if String.eqb word EmptyString then others else word :: others.

Fixpoint has_char (c : ascii) (s : string) : bool :=
  match s with
  | EmptyString => false
  | String d t => Ascii.eqb c d || has_char c t
  end.



(** A string the tokenizer reads back unchanged from between double
    quotes: no double quote and none of the characters it rewrites. *)
Fixpoint attribute_safe (s : string) : bool :=
  match s with
  | EmptyString => true
  | String c t =>
      negb (Ascii.eqb c dq) && negb (rewritten_in_attribute c) && attribute_safe t
  end.


(** ** Exceptions and results *)

Inductive exn : Type :=
| TypeError
| SyntaxError
| AbortError
| Error (message : string).

Inductive result (A : Type) : Type :=
| Ok (a : A)
| Throw (e : exn).
Arguments Ok {A} a.
Arguments Throw {A} e.

Definition rbind {A B} (r : result A) (k : A -> result B) : result B :=
  match r with
  | Ok a => k a
  | Throw e => Throw e
  end.

Declare Scope result_scope.
Delimit Scope result_scope with result.
Notation "'let?' x ':=' r 'in' k" := (rbind r (fun x => k))
  (at level 10, x name, r at level 100, k at level 200) : result_scope.
Local Open Scope result_scope.

(** [Array.prototype.map] with a callback that may raise: the callback runs
    on the elements in order and the first exception escapes. *)
Fixpoint map_result {A B} (f : A -> result B) (l : list A) : result (list B) :=
  match l with
  | [] => Ok []
  | x :: t =>
      let? y := f x in
      let? ys := map_result f t in
      Ok (y :: ys)
  end.

(** [Array.prototype.filter] with a callback that may raise. *)
Fixpoint filter_result {A} (p : A -> result bool) (l : list A)
  : result (list A) :=
  match l with
  | [] => Ok []
  | x :: t =>
      let? b := p x in
      let? r := filter_result p t in
      Ok (if b then x :: r else r)
  end.

(** ** Sets in insertion order *)

Section JsSet.
Context {A : Type} (same : A -> A -> bool).

Definition set_has (x : A) (s : list A) : bool := existsb (same x) s.

Definition set_add (x : A) (s : list A) : list A :=
  if set_has x s then s else (s ++ [x])%list.

Definition set_delete (x : A) (s : list A) : list A :=
  filter (fun y => negb (same x y)) s.

(** [new Set(iterable)]: the elements are added one by one. *)
Definition set_of_list (l : list A) : list A :=
  fold_left (fun s x => set_add x s) l [].
End JsSet.

(** ** Values *)

(** JSON numbers are IEEE doubles.  The script never computes with them:
    it prints them ([${...}]), tests them ([c ? a : b]) and compares them
    ([Set]); these three operations are the interface of the type. *)
Class Numbers (number : Type) : Type := {
  number_to_string : number -> string;
  number_truthy : number -> bool;
  number_same : number -> number -> bool
}.

(** The documents all of whose numbers are naturals small enough to print
    as plain decimals. *)
#[export] Instance natural_numbers : Numbers nat := {
  number_to_string n := NilEmpty.string_of_uint (Nat.to_uint n);
  number_truthy n := negb (Nat.eqb n 0);
  number_same := Nat.eqb
}.

(** A parsed JSON value, or [undefined] (what reading an absent property
    gives).  An object is the list of its own properties. *)
#[warnings="-register-all"]
Inductive value (number : Type) : Type :=
| VUndef
| VNull
| VBool (b : bool)
| VNum (n : number)
| VStr (s : string)
| VArr (elems : list (value number))
| VObj (props : list (string * value number)).
Arguments VUndef {number}.
Arguments VNull {number}.
Arguments VBool {number} b.
Arguments VNum {number} n.
Arguments VStr {number} s.
Arguments VArr {number} elems.
Arguments VObj {number} props.

(** ** The page and the script *)

Section JobBoard.

Context {number : Type} {numbers : Numbers number}.

Local Abbreviation value := (value number) (only parsing).

Fixpoint lookup (name : string) (props : list (string * value))
  : option value :=
  match props with
  | [] => None
  | (k, v) :: t => if String.eqb k name then Some v else lookup name t
  end.

(** [v.name], for the property names the script reads (role, level,
    languages, tools, logo, company, new, featured, position, postedAt,
    contract, location): none of them is on a built-in prototype, so a
    value other than an object that owns the property gives [undefined];
    [null] and [undefined] have no properties at all. *)
Definition get_field (v : value) (name : string) : result value :=
  match v with
  | VUndef | VNull => Throw TypeError
  | VObj props =>
      match lookup name props with
      | Some x => Ok x
      | None => Ok VUndef
      end
  | _ => Ok VUndef
  end.

(** [...v] inside an array literal: arrays and strings are iterable, the
    other values are not. *)
Definition spread (v : value) : result (list value) :=
  match v with
  | VArr l => Ok l
  | VStr s => Ok (map VStr (code_points s))
  | _ => Throw TypeError
  end.

(** ToString, as [${...}] applies it.  [Array.prototype.toString] joins
    the elements with commas, [null] and [undefined] elements as empty
    strings.  An object prints as [[object Object]] unless it owns a
    [toString] property: a parsed value is never callable, and the
    conversion then finds no primitive. *)
Fixpoint to_string (v : value) : result string :=
  match v with
  | VUndef => Ok "undefined"
  | VNull => Ok "null"
  | VBool true => Ok "true"
  | VBool false => Ok "false"
  | VNum n => Ok (number_to_string n)
  | VStr s => Ok s
  | VArr l =>
      (fix join (l : list value) : result string :=
         match l with
         | [] => Ok ""
         | x :: t =>
             let? s := match x with
                       | VUndef | VNull => Ok ""
                       | _ => to_string x
                       end in
             match t with
             | [] => Ok s
             | _ :: _ => let? r := join t in Ok (s ++ "," ++ r)
             end
         end) l
  | VObj props =>
      match lookup "toString" props with
      | Some _ => Throw TypeError
      | None => Ok "[object Object]"
      end
  end.

(** ToBoolean, as [c ? a : b] applies it. *)
Definition truthy (v : value) : bool :=
  match v with
  | VUndef | VNull => false
  | VBool b => b
  | VNum n => number_truthy n
  | VStr s => negb (String.eqb s "")
  | VArr _ | VObj _ => true
  end.

(** SameValueZero, the equality of [Set].  Two objects are the same only
    if they are one object; the objects compared here sit at different
    places of the parsed document. *)
Definition same_value_zero (a b : value) : bool :=
  match a, b with
  | VUndef, VUndef => true
  | VNull, VNull => true
  | VBool x, VBool y => Bool.eqb x y
  | VNum x, VNum y => number_same x y
  | VStr x, VStr y => String.eqb x y
  | _, _ => false
  end.

(** What [dataset.tag] and [dataset.filter] give: the attribute's string,
    or [undefined] when the element has no such attribute. *)
Definition filter : Type := option string.

Definition filter_same (a b : filter) : bool :=
  match a, b with
  | None, None => true
  | Some x, Some y => String.eqb x y
  | _, _ => false
  end.

Definition filter_value (f : filter) : value :=
  match f with
  | None => VUndef
  | Some s => VStr s
  end.

(** [${filter}] for such a value. *)
Definition filter_text (f : filter) : string :=
  match f with
  | None => "undefined"
  | Some s => s
  end.

(** *** createJobCard (lines 20-53) *)

Definition tag_badge_open : string :=
  nl ++ lit "        <span class='badge tag filter-tag' data-tag='".
Definition tag_badge_mid : string := lit "'>".
Definition tag_badge_close : string := "</span>" ++ nl ++ "    ".


(** Lines 24-26: [${tag}] is converted once for the attribute and once for
    the text. *)
Definition tag_badge (tag : value) : result string :=
  let? in_attribute := to_string tag in
  let? in_text := to_string tag in
  Ok (tag_badge_open ++ in_attribute ++ tag_badge_mid ++ in_text
      ++ tag_badge_close).

Definition new_badge : string := lit "<span class='badge new mx-2'>New!</span>".
Definition featured_badge : string :=
  lit "<span class='badge featured'>Featured</span>".

(** [[job.role, job.level, ...job.languages, ...job.tools]], evaluated
    left to right. *)
Definition job_tags (job : value) : result (list value) :=
  let? role := get_field job "role" in
  let? level := get_field job "level" in
  let? languages := get_field job "languages" in
  let? ls := spread languages in
  let? tools := get_field job "tools" in
  let? ts := spread tools in
  Ok (role :: level :: (ls ++ ts)%list).

(** [${job.name}] *)
Definition interpolate (job : value) (name : string) : result string :=
  let? v := get_field job name in to_string v.

Definition createJobCard (job : value) : result string :=
  let? tags := job_tags job in
  let? badges := map_result tag_badge tags in
  let tagsHtml := join_empty badges in
  let? logo := interpolate job "logo" in
  let? company_alt := interpolate job "company" in
  let? company := interpolate job "company" in
  let? is_new := get_field job "new" in
  let? is_featured := get_field job "featured" in
  let? position := interpolate job "position" in
  let? postedAt := interpolate job "postedAt" in
  let? contract := interpolate job "contract" in
  let? location := interpolate job "location" in
  Ok (nl ++
      lit "        <div class='card mb-4 job-card'>" ++ nl ++
      "        " ++ nl ++
      lit "            <div class='card-body'>" ++ nl ++
      lit "                <div class='d-flex align-items-center head mb-3'>" ++ nl ++
      lit "                <img src='" ++ logo ++ lit "' alt='" ++ company_alt ++
      lit " logo' class='me-3' width='50' height='50'>" ++ nl ++
      lit "                    <h5 class='card-title'>" ++ company ++ "</h5>" ++ nl ++
      "                    " ++ (if truthy is_new then new_badge else "") ++ " " ++ nl ++
      "                    " ++ (if truthy is_featured then featured_badge else "") ++ nl ++
      "                </div>" ++ nl ++
      lit "                <div class='d-flex jobs'>" ++ nl ++
      lit "                <h4 class='heads'>" ++ position ++ "</h4> " ++ nl ++
      lit "                <div class='tools'>" ++ tagsHtml ++ "</div>" ++ nl ++
      "                </div>" ++ nl ++
      lit "                <p class='text-muted mute'>" ++ postedAt ++
      " " ++ middle_dot ++ " " ++ contract ++
      " " ++ middle_dot ++ " " ++ location ++ "</p>" ++ nl ++
      "            </div>" ++ nl ++
      lit "                <div class='bottom'>" ++ nl ++
      "                <hr>" ++ nl ++
      "                <div>" ++ tagsHtml ++ "</div>" ++ nl ++
      "                </div>" ++ nl ++
      "        </div>" ++ nl ++
      "    ").

(** *** The globals and the page *)

(** [activeFilters] and [jobs] (lines 2-3), the three places of the page
    the script writes ([innerHTML] of [#job-listings], [style.display] of
    [#filter-bar], [innerHTML] of [#filter-tags]: the last markup and
    value assigned), and what [console.error] has received. *)
Record state : Type := mkState {
  activeFilters : list filter;
  jobs : value;
  jobListings_innerHTML : string;
  filterBar_display : string;
  filterTags_innerHTML : string;
  console : list (string * exn)
}.

(** The script has just been loaded into a page whose three places hold
    [listing], [display] and [chips]. *)
Definition initial_state (listing display chips : string) : state :=
  mkState [] (VArr []) listing display chips [].

Definition M (A : Type) : Type := state -> result A * state.

Definition ret {A} (a : A) : M A := fun st => (Ok a, st).

Definition bind {A B} (c : M A) (k : A -> M B) : M B :=
  fun st =>
    match c st with
    | (Ok a, st') => k a st'
    | (Throw e, st') => (Throw e, st')
    end.

Notation "x <- c ;; k" := (bind c (fun x => k))
  (at level 61, c at next level, right associativity).
Notation "c ;; k" := (bind c (fun _ => k))
  (at level 61, right associativity).

Definition throw {A} (e : exn) : M A := fun st => (Throw e, st).

Definition lift {A} (r : result A) : M A := fun st => (r, st).

(** [try { body } catch (error) { handler }] *)
Definition try_catch {A} (body : M A) (handler : exn -> M A) : M A :=
  fun st =>
    match body st with
    | (Ok a, st') => (Ok a, st')
    | (Throw e, st') => handler e st'
    end.

Definition get_state : M state := fun st => (Ok st, st).

Definition modify (f : state -> state) : M unit := fun st => (Ok tt, f st).

Definition with_activeFilters (F : list filter) (st : state) : state :=
  mkState F (jobs st) (jobListings_innerHTML st) (filterBar_display st)
          (filterTags_innerHTML st) (console st).

Definition with_jobs (v : value) (st : state) : state :=
  mkState (activeFilters st) v (jobListings_innerHTML st)
          (filterBar_display st) (filterTags_innerHTML st) (console st).

Definition with_jobListings (html : string) (st : state) : state :=
  mkState (activeFilters st) (jobs st) html (filterBar_display st)
          (filterTags_innerHTML st) (console st).

Definition with_display (d : string) (st : state) : state :=
  mkState (activeFilters st) (jobs st) (jobListings_innerHTML st) d
          (filterTags_innerHTML st) (console st).

Definition with_filterTags (html : string) (st : state) : state :=
  mkState (activeFilters st) (jobs st) (jobListings_innerHTML st)
          (filterBar_display st) html (console st).

Definition console_error (label : string) (e : exn) : M unit :=
  modify (fun st =>
    mkState (activeFilters st) (jobs st) (jobListings_innerHTML st)
            (filterBar_display st) (filterTags_innerHTML st)
            (console st ++ [(label, e)])%list).

(** *** renderJobs (lines 56-70) *)

(** The callback of [jobs.filter] (lines 59-65) for the active filters
    [F]. *)
Definition job_passes (F : list filter) (job : value) : result bool :=
  if Nat.eqb (List.length F) 0 then Ok true
  else
    let? tags := job_tags job in
    let jobTags := set_of_list same_value_zero tags in
    Ok (forallb (fun f => set_has same_value_zero (filter_value f) jobTags) F).

(** [jobs.filter(...)]: [filteredJobs].  Only an array has a [filter]
    method. *)
Definition filteredJobs (js : value) (F : list filter)
  : result (list value) :=
  match js with
  | VArr l => filter_result (job_passes F) l
  | _ => Throw TypeError
  end.

Definition renderJobs : M unit :=
  st <- get_state ;;
  visible <- lift (filteredJobs (jobs st) (activeFilters st)) ;;
  cards <- lift (map_result createJobCard visible) ;;
  modify (with_jobListings (join_empty cards)).

(** *** updateFilterBar (lines 87-102) *)

Definition filter_chip_open : string :=
  nl ++ lit "            <span class='badge btn2'>" ++ nl ++
  "                ".
Definition filter_chip_mid : string :=
  nl ++
  lit "                <button type='button' class='btn-close close btn-close-white' aria-label='Close' data-filter='".
Definition filter_chip_close : string :=
  lit "'></button> " ++ nl ++
  "            </span>" ++ nl ++
  "        ".

(** The template of lines 93-98 around the text of a filter. *)
Definition filter_chip_markup (text : string) : string :=
  filter_chip_open ++ text ++ filter_chip_mid ++ text ++ filter_chip_close.

Definition filter_chip (f : filter) : string :=
  filter_chip_markup (filter_text f).

Definition updateFilterBar : M unit :=
  st <- get_state ;;
  if Nat.ltb 0 (List.length (activeFilters st)) then
    modify (with_display "block") ;;
    modify (with_filterTags (join_empty (map filter_chip (activeFilters st))))
  else
    modify (with_display "none").

(** *** addFilter, removeFilter (lines 73-84) *)

Definition addFilter (f : filter) : M unit :=
  modify (fun st => with_activeFilters (set_add filter_same f (activeFilters st)) st) ;;
  updateFilterBar ;;
  renderJobs.

Definition removeFilter (f : filter) : M unit :=
  modify (fun st => with_activeFilters (set_delete filter_same f (activeFilters st)) st) ;;
  updateFilterBar ;;
  renderJobs.

(** *** The click listeners (lines 105-123) *)

(** The listener of [#clear-filters]. *)
Definition clearFilters : M unit :=
  modify (with_activeFilters []) ;;
  updateFilterBar ;;
  renderJobs.

(** What the document listener reads of the element clicked. *)
Record element : Type := mkElement {
  classList : list string;
  dataset_tag : filter;
  dataset_filter : filter
}.

Definition has_class (c : string) (el : element) : bool :=
  existsb (String.eqb c) (classList el).

Definition onDocumentClick (target : element) : M unit :=
  (if has_class "filter-tag" target then addFilter (dataset_tag target)
   else ret tt) ;;
  (if has_class "btn-close" target then removeFilter (dataset_filter target)
   else ret tt).

(** *** fetchJobs (lines 6-17) *)

(** How [response.json()] settles: with the parsed document, or
    rejected. *)
Inductive json_outcome : Type :=
| JsonParsed (v : value)
| JsonRejected (e : exn).

(** How [fetch('/data.json')] settles: rejected (no response at all), or
    with a response, its [ok] flag and its body. *)
Inductive fetch_outcome : Type :=
| FetchRejected (e : exn)
| FetchResponse (ok : bool) (body : json_outcome).

Definition fetchJobs (o : fetch_outcome) : M unit :=
  try_catch
    (match o with
     | FetchRejected e => throw e
     | FetchResponse ok body =>
         if negb ok then throw (Error "Failed to load jobs")
         else
           match body with
           | JsonRejected e => throw e
           | JsonParsed v =>
               modify (with_jobs v) ;;
               renderJobs
           end
     end)
    (fun error => console_error "Error fetching jobs:" error).

(** Running a computation for its state, and for its result. *)
Definition exec {A} (c : M A) (st : state) : state := snd (c st).
Definition outcome {A} (c : M A) (st : state) : result A := fst (c st).

(** What [renderJobs] assigns to [innerHTML] for the globals [js] and
    [F], when nothing is raised on the way. *)
Definition rendered_listing (js : value) (F : list filter) : result string :=
  let? visible := filteredJobs js F in
  let? cards := map_result createJobCard visible in
  Ok (join_empty cards).

(** The state [updateFilterBar] leaves. *)
Definition bar_updated (st : state) : state :=
  match activeFilters st with
  | [] => with_display "none" st
  | _ :: _ =>
      with_filterTags (join_empty (map filter_chip (activeFilters st)))
                      (with_display "block" st)
  end.

(** [updateFilterBar(); renderJobs();], the tail of every transition. *)
Definition rerender : M unit := updateFilterBar ;; renderJobs.

(** The page shows what the renderers write for the current globals. *)
Definition in_sync (st : state) : Prop := exec rerender st = st.

(** *** Events *)

(** A click somewhere in the document, a click on [#clear-filters] (which
    then bubbles to the document listener: an exception in one listener
    does not keep the next from running), and the settling of the fetch
    started at [DOMContentLoaded]. *)
Inductive event : Type :=
| Click (target : element)
| ClickClearFilters (target : element)
| Loaded (o : fetch_outcome).

Definition handle (ev : event) (st : state) : state :=
  match ev with
  | Click target => exec (onDocumentClick target) st
  | ClickClearFilters target =>
      exec (onDocumentClick target) (exec clearFilters st)
  | Loaded o => exec (fetchJobs o) st
  end.

Inductive reachable : state -> Prop :=
| reachable_initial listing display chips :
    reachable (initial_state listing display chips)
| reachable_step st ev :
    reachable st -> reachable (handle ev st).

(** *** The data model of the specification *)

(** [job.name], [undefined] when absent. *)
Definition field (job : value) (name : string) : value :=
  match job with
  | VObj props =>
      match lookup name props with
      | Some v => v
      | None => VUndef
      end
  | _ => VUndef
  end.

Definition elements (v : value) : list value :=
  match v with
  | VArr l => l
  | _ => []
  end.

(** The derived tags of a job: role, level, each language, each tool. *)
Definition derived_tags (job : value) : list value :=
  field job "role" :: field job "level" ::
  (elements (field job "languages") ++ elements (field job "tools"))%list.

(** Every active filter is among the derived tags of the job. *)
Definition matches_all (F : list filter) (job : value) : Prop :=
  forall f, In f F -> In (filter_value f) (derived_tags job).

(** [matches_all], decided with the equality of [Set]. *)
Definition matches_allb (F : list filter) (job : value) : bool :=
  forallb (fun f => existsb (same_value_zero (filter_value f))
                            (derived_tags job)) F.

Definition is_array (v : value) : bool :=
  match v with
  | VArr _ => true
  | _ => false
  end.

Definition is_object (v : value) : bool :=
  match v with
  | VObj _ => true
  | _ => false
  end.

(** A record whose [languages] and [tools] are arrays. *)
Definition has_tag_lists (job : value) : bool :=
  is_object job && is_array (field job "languages") && is_array (field job "tools").

(** A primitive value, or [undefined]. *)
Definition scalar (v : value) : bool :=
  match v with
  | VArr _ | VObj _ => false
  | _ => true
  end.

(** The fields [createJobCard] converts to text. *)
Definition text_fields : list string :=
  ["role"; "level"; "logo"; "company"; "position"; "postedAt"; "contract";
   "location"].

(** A record whose [languages] and [tools] are arrays of scalars and whose
    text fields are scalars or absent. *)
Definition renderable (job : value) : bool :=
  has_tag_lists job &&
  forallb scalar (elements (field job "languages")) &&
  forallb scalar (elements (field job "tools")) &&
  forallb (fun name => scalar (field job name)) text_fields.

(** How a fetch can fail: no response, a response whose status is not a
    success, a body that is not JSON. *)
Inductive fetch_fails : fetch_outcome -> exn -> Prop :=
| fails_network e : fetch_fails (FetchRejected e) e
| fails_status body :
    fetch_fails (FetchResponse false body) (Error "Failed to load jobs")
| fails_parse e : fetch_fails (FetchResponse true (JsonRejected e)) e.

(** *** Sample data *)

Definition text (s : string) : value := VStr s.

Definition sample_job (company position role level : string)
  (languages tools : list string) (is_new is_featured : bool) : value :=
  VObj [("company", text company); ("logo", text "./images/logo.svg");
        ("new", VBool is_new); ("featured", VBool is_featured);
        ("position", text position); ("role", text role);
        ("level", text level); ("postedAt", text "1d ago");
        ("contract", text "Full Time"); ("location", text "Remote");
        ("languages", VArr (map text languages));
        ("tools", VArr (map text tools))].

Definition frontend_job : value :=
  sample_job "Photosnap" "Junior Frontend Developer" "Frontend" "Junior"
             ["HTML"; "CSS"] [] true true.

Definition backend_job : value :=
  sample_job "Manage" "Senior Backend Developer" "Backend" "Senior"
             ["Python"] ["Django"] false false.

Definition sample_jobs : list value := [frontend_job; backend_job].

(** A record without [languages]. *)
Definition job_without_languages : value :=
  VObj [("company", text "Photosnap"); ("role", text "Frontend");
        ("level", text "Junior"); ("tools", VArr [])].

(** A record without [company], [logo] and [level]. *)
Definition job_without_scalars : value :=
  VObj [("role", text "Frontend"); ("position", text "Developer");
        ("postedAt", text "1d ago"); ("contract", text "Full Time");
        ("location", text "Remote"); ("languages", VArr [text "HTML"]);
        ("tools", VArr [])].

(** The page once the sample document has loaded. *)
Definition sample_loaded : state :=
  exec (fetchJobs (FetchResponse true (JsonParsed (VArr sample_jobs))))
       (initial_state "" "" "").

(** The same page once the tag [Frontend] has been clicked. *)
Definition sample_filtered : state :=
  exec (addFilter (Some "Frontend")) sample_loaded.

(** *** Further definitions for the properties below *)

(** The filter [f] is among the derived tags of the job, decided with the
    equality of [Set]. *)
Definition has_tag (f : filter) (job : value) : bool :=
  existsb (same_value_zero (filter_value f)) (derived_tags job).

(** A value no filter can be the same as: [dataset] gives strings and
    [undefined] only. *)
Definition never_a_filter (v : value) : bool :=
  match v with
  | VStr _ | VUndef => false
  | _ => true
  end.

(** The element a start tag becomes, as the document listener sees it:
    [classList] from the [class] attribute, [dataset.tag] and
    [dataset.filter] from [data-tag] and [data-filter]. *)
Definition element_of (attrs : list (string * string)) : element :=
  mkElement
    (match attr "class" attrs with
     | Some classes => class_tokens classes
     | None => []
     end)
    (attr "data-tag" attrs) (attr "data-filter" attrs).



(** All the elements of the markup, in order, when all of it is in the
    model. *)
Definition markup_elements (markup : string) : option (list element) :=
  option_map (map element_of) (start_tags Data markup).



(** The elements a chip of lines 93-98 is meant to become. *)
Definition chip_span : element := mkElement ["badge"; "btn2"] None None.

Definition close_button (text : string) : element :=
  mkElement ["btn-close"; "close"; "btn-close-white"] None (Some text).

(** The page once a document with a record without [languages] has
    loaded. *)
Definition sample_broken : state :=
  exec (fetchJobs (FetchResponse true
                     (JsonParsed (VArr [frontend_job; job_without_languages]))))
       (initial_state "" "" "").

(** A record whose tags are booleans and [null]. *)
Definition job_with_flags : value :=
  VObj [("company", text "Acme"); ("role", VBool true); ("level", VNull);
        ("languages", VArr [VBool false]); ("tools", VArr [])].

(** The page once the sample document has loaded and the badge of the tag
    [Frontend] has been clicked. *)
Definition sample_reached : state :=
  handle (Click (mkElement ["badge"; "tag"; "filter-tag"] (Some "Frontend") None))
         (handle (Loaded (FetchResponse true (JsonParsed (VArr sample_jobs))))
                 (initial_state "" "" "")).


Definition undefined_page : state :=
  handle (Click (mkElement ["filter-tag"] None None)) (initial_state "" "" "").

(** * Properties *)

(** ** Strings *)

Lemma append_assoc (a b c : string) : (a ++ b) ++ c = a ++ (b ++ c).
Proof.
  induction a as [|x a IH]; simpl; [reflexivity | now rewrite IH].
Qed.

Lemma join_empty_app (l1 l2 : list string) :
  join_empty (l1 ++ l2)%list = join_empty l1 ++ join_empty l2.
Proof.
  induction l1 as [|x l1 IH]; simpl; [reflexivity|].
  now rewrite IH, append_assoc.
Qed.

(** ** The tokenizer *)

Lemma append_empty_r (s : string) : s ++ "" = s.
Proof.
  induction s as [|a s IH]; simpl; [reflexivity | now rewrite IH].
Qed.


Lemma attribute_safe_no_dq (s : string) :
  attribute_safe s = true -> has_char dq s = false.
Proof.
  induction s as [|c s IH]; cbn [attribute_safe has_char]; [reflexivity|].
  intros H. apply andb_prop in H as [H Hs]. apply andb_prop in H as [Hc _].
  rewrite (IH Hs), orb_false_r.
  rewrite Ascii.eqb_sym. now apply negb_true_iff.
Qed.











(** ** The badge and the chip as the browser reads them *)






(** ** Results *)

Lemma filter_result_total {A} (p : A -> result bool) (keep : A -> bool)
  (l : list A) :
  Forall (fun x => p x = Ok (keep x)) l ->
  filter_result p l = Ok (List.filter keep l).
Proof.
  induction 1 as [|x t Hx _ IH]; simpl.
  - reflexivity.
  - rewrite Hx, IH. simpl. reflexivity.
Qed.

(** ** Sets of filters *)

Lemma filter_same_true (a b : filter) : filter_same a b = true <-> a = b.
Proof.
  destruct a as [x|], b as [y|]; simpl; split; intros H;
    try discriminate; try reflexivity.
  - apply String.eqb_eq in H. now subst.
  - injection H as ->. apply String.eqb_refl.
Qed.

Lemma set_has_filter (f : filter) (F : list filter) :
  set_has filter_same f F = true <-> In f F.
Proof.
  unfold set_has. rewrite existsb_exists. split.
  - intros (g & Hin & Hs). apply filter_same_true in Hs. now subst.
  - intros Hin. exists f. split; [assumption | now apply filter_same_true].
Qed.

Lemma set_add_present (f : filter) (F : list filter) :
  In f F -> set_add filter_same f F = F.
Proof.
  intros Hin. unfold set_add.
  apply set_has_filter in Hin. now rewrite Hin.
Qed.

Lemma set_delete_absent (f : filter) (F : list filter) :
  ~ In f F -> set_delete filter_same f F = F.
Proof.
  unfold set_delete. induction F as [|g F IH]; simpl; intros Hnin.
  - reflexivity.
  - destruct (filter_same f g) eqn:E.
    + apply filter_same_true in E. subst. exfalso. apply Hnin. now left.
    + simpl. f_equal. apply IH. intros Hin. apply Hnin. now right.
Qed.

Lemma set_add_NoDup (f : filter) (F : list filter) :
  NoDup F -> NoDup (set_add filter_same f F).
Proof.
  intros Hnd. unfold set_add.
  destruct (set_has filter_same f F) eqn:E; [assumption|].
  apply NoDup_app; [assumption | repeat constructor; intros [] | ].
  intros x Hx [<-|[]].
  apply set_has_filter in Hx. congruence.
Qed.

Lemma set_delete_NoDup (f : filter) (F : list filter) :
  NoDup F -> NoDup (set_delete filter_same f F).
Proof.
  intros Hnd. unfold set_delete. now apply NoDup_filter.
Qed.

(** ** The tags of a job *)

Lemma same_value_zero_filter (f : filter) (v : value) :
  same_value_zero (filter_value f) v = true <-> v = filter_value f.
Proof.
  destruct f as [s|], v; simpl; split; intros H;
    try discriminate; try reflexivity.
  - apply String.eqb_eq in H. now subst.
  - injection H as ->. apply String.eqb_refl.
Qed.

Lemma existsb_same_value_zero (f : filter) (l : list value) :
  existsb (same_value_zero (filter_value f)) l = true
  <-> In (filter_value f) l.
Proof.
  rewrite existsb_exists. split.
  - intros (v & Hin & Hs). apply same_value_zero_filter in Hs. now subst.
  - intros Hin. exists (filter_value f).
    split; [assumption | now apply same_value_zero_filter].
Qed.

Lemma set_has_add_value (f : filter) (y : value) (acc : list value) :
  set_has same_value_zero (filter_value f) (set_add same_value_zero y acc)
  = set_has same_value_zero (filter_value f) acc
    || same_value_zero (filter_value f) y.
Proof.
  unfold set_add. destruct (set_has same_value_zero y acc) eqn:E.
  - destruct (same_value_zero (filter_value f) y) eqn:Ey.
    + apply same_value_zero_filter in Ey. subst y.
      rewrite E. reflexivity.
    + now rewrite orb_false_r.
  - unfold set_has. rewrite existsb_app. simpl. now rewrite orb_false_r.
Qed.

Lemma set_has_fold_add (f : filter) (l acc : list value) :
  set_has same_value_zero (filter_value f)
          (fold_left (fun s x => set_add same_value_zero x s) l acc)
  = set_has same_value_zero (filter_value f) acc
    || existsb (same_value_zero (filter_value f)) l.
Proof.
  revert acc. induction l as [|y l IH]; intros acc; simpl.
  - now rewrite orb_false_r.
  - rewrite IH, set_has_add_value. now rewrite orb_assoc.
Qed.

(** Collapsing duplicates does not change which filters are members. *)
Lemma set_has_of_list (f : filter) (l : list value) :
  set_has same_value_zero (filter_value f) (set_of_list same_value_zero l)
  = existsb (same_value_zero (filter_value f)) l.
Proof.
  unfold set_of_list. rewrite set_has_fold_add. reflexivity.
Qed.

Lemma get_field_object (props : list (string * value)) (name : string) :
  get_field (VObj props) name = Ok (field (VObj props) name).
Proof.
  simpl. destruct (lookup name props); reflexivity.
Qed.

Lemma has_tag_lists_inv (job : value) :
  has_tag_lists job = true ->
  exists props ls ts,
    job = VObj props /\ field job "languages" = VArr ls
    /\ field job "tools" = VArr ts.
Proof.
  unfold has_tag_lists. intros H.
  apply andb_prop in H as [H Ht]. apply andb_prop in H as [Ho Hl].
  destruct job; try discriminate.
  destruct (field (VObj props) "languages") eqn:El; try discriminate.
  destruct (field (VObj props) "tools") eqn:Et; try discriminate.
  eauto 6.
Qed.

Lemma job_tags_derived (job : value) :
  has_tag_lists job = true -> job_tags job = Ok (derived_tags job).
Proof.
  intros H. destruct (has_tag_lists_inv job H) as (props & ls & ts & -> & El & Et).
  unfold job_tags, derived_tags. rewrite !get_field_object. cbn [rbind].
  rewrite El, Et. reflexivity.
Qed.

Lemma matches_allb_true (F : list filter) (job : value) :
  matches_allb F job = true <-> matches_all F job.
Proof.
  unfold matches_allb, matches_all. rewrite forallb_forall.
  split; intros H f Hf; apply existsb_same_value_zero; now apply H.
Qed.

Lemma job_passes_matches (F : list filter) (job : value) :
  has_tag_lists job = true -> job_passes F job = Ok (matches_allb F job).
Proof.
  intros H. unfold job_passes.
  destruct F as [|f F]; [reflexivity|].
  cbn [List.length Nat.eqb]. rewrite (job_tags_derived job H). cbn [rbind].
  f_equal. unfold matches_allb.
  generalize (f :: F). intros G.
  induction G as [|g G IH]; simpl; [reflexivity|].
  now rewrite set_has_of_list, IH.
Qed.

(** C1.  For a list [L] of records with tag lists and any active filters
    [F], the jobs [renderJobs] keeps are exactly [L] filtered, in order, by
    a test that holds of a job if and only if every filter of [F] is among
    the job's derived tags (role, level, each language, each tool); with no
    filter the test holds of every job. *)
Theorem filteredJobs_matching_sublist (L : list value) (F : list filter) :
  Forall (fun job => has_tag_lists job = true) L ->
  exists keep : value -> bool,
    (forall job, keep job = true <-> matches_all F job)
    /\ (F = [] -> forall job, keep job = true)
    /\ filteredJobs (VArr L) F = Ok (List.filter keep L).
Proof.
  intros HL. exists (matches_allb F). split; [|split].
  - intros job. apply matches_allb_true.
  - intros -> job. reflexivity.
  - simpl. apply filter_result_total.
    eapply Forall_impl; [|exact HL].
    intros job Hjob. now apply job_passes_matches.
Qed.

(** With no active filter the callback keeps every element without
    looking at it. *)
Lemma filter_result_no_filter (L : list value) :
  filter_result (job_passes []) L = Ok L.
Proof.
  induction L as [|job L IH]; simpl.
  - reflexivity.
  - rewrite IH. reflexivity.
Qed.

(** C6.  With no active filter the jobs kept are the whole list, whatever
    the records are. *)
Theorem filteredJobs_no_filter (L : list value) :
  filteredJobs (VArr L) [] = Ok L.
Proof.
  unfold filteredJobs. apply filter_result_no_filter.
Qed.

(** ** Records with absent fields *)

Lemma to_string_scalar (v : value) :
  scalar v = true -> exists s, to_string v = Ok s.
Proof.
  destruct v as [| |[]| | | |]; simpl; intros H; try discriminate; eauto.
Qed.

Lemma tag_badge_scalar (v : value) :
  scalar v = true -> exists html, tag_badge v = Ok html.
Proof.
  intros H. destruct (to_string_scalar v H) as [s Hs].
  unfold tag_badge. rewrite Hs. cbn [rbind]. eauto.
Qed.

Lemma map_result_defined {A B} (f : A -> result B) (l : list A) :
  Forall (fun x => exists y, f x = Ok y) l ->
  exists ys, Forall2 (fun x y => f x = Ok y) l ys /\ map_result f l = Ok ys.
Proof.
  induction 1 as [|x t [y Hy] _ (ys & Hall & IH)]; simpl.
  - exists []. split; [constructor | reflexivity].
  - exists (y :: ys). rewrite Hy, IH. split; [now constructor | reflexivity].
Qed.

Lemma interpolate_scalar (props : list (string * value)) (name : string) :
  scalar (field (VObj props) name) = true ->
  exists s, interpolate (VObj props) name = Ok s.
Proof.
  intros H. unfold interpolate. rewrite get_field_object. cbn [rbind].
  now apply to_string_scalar.
Qed.

Lemma interpolate_absent (props : list (string * value)) (name : string) :
  lookup name props = None ->
  interpolate (VObj props) name = Ok "undefined".
Proof.
  intros H. unfold interpolate. simpl. rewrite H. reflexivity.
Qed.

Lemma renderable_inv (job : value) :
  renderable job = true ->
  has_tag_lists job = true
  /\ Forall (fun v => scalar v = true) (derived_tags job)
  /\ forall name, In name text_fields -> scalar (field job name) = true.
Proof.
  unfold renderable. intros H.
  apply andb_prop in H as [H Hf]. apply andb_prop in H as [H Ht].
  apply andb_prop in H as [Hj Hl].
  rewrite forallb_forall in Hf, Ht, Hl.
  split; [assumption|]. split; [|assumption].
  unfold derived_tags.
  constructor; [apply Hf; simpl; tauto|].
  constructor; [apply Hf; simpl; tauto|].
  apply Forall_forall. intros v Hv.
  apply in_app_or in Hv as [Hv|Hv]; auto.
Qed.

Lemma createJobCard_renderable (job : value) :
  renderable job = true -> exists html, createJobCard job = Ok html.
Proof.
  intros H. destruct (renderable_inv job H) as (Hj & Htags & Hf).
  destruct (has_tag_lists_inv job Hj) as (props & _ & _ & -> & _ & _).
  unfold createJobCard. rewrite (job_tags_derived _ Hj). cbn [rbind].
  destruct (map_result_defined tag_badge (derived_tags (VObj props)))
    as (badges & _ & ->).
  { eapply Forall_impl; [|exact Htags]. intros v. apply tag_badge_scalar. }
  cbn [rbind].
  destruct (interpolate_scalar props "logo") as [logo ->];
    [apply Hf; simpl; tauto|].
  destruct (interpolate_scalar props "company") as [company ->];
    [apply Hf; simpl; tauto|].
  rewrite !get_field_object.
  destruct (interpolate_scalar props "position") as [position ->];
    [apply Hf; simpl; tauto|].
  destruct (interpolate_scalar props "postedAt") as [postedAt ->];
    [apply Hf; simpl; tauto|].
  destruct (interpolate_scalar props "contract") as [contract ->];
    [apply Hf; simpl; tauto|].
  destruct (interpolate_scalar props "location") as [location ->];
    [apply Hf; simpl; tauto|].
  cbn [rbind]. eauto.
Qed.

Lemma spread_throws (v : value) (e : exn) :
  spread v = Throw e -> e = TypeError.
Proof.
  destruct v; simpl; intros H; try discriminate; now injection H.
Qed.

Lemma job_tags_absent_list (job : value) :
  field job "languages" = VUndef \/ field job "tools" = VUndef ->
  job_tags job = Throw TypeError.
Proof.
  intros H. unfold job_tags.
  destruct job as [| |b|n|s|l|props]; try reflexivity.
  rewrite !get_field_object. cbn [rbind].
  destruct H as [-> | Ht]; [reflexivity|].
  destruct (spread (field (VObj props) "languages")) as [ls|e] eqn:El.
  - cbn [rbind]. rewrite Ht. reflexivity.
  - apply spread_throws in El. now subst.
Qed.

(** C2, as amended.  A record whose [languages] and [tools] are arrays of
    scalars and whose text fields are scalars or absent goes through the
    filter callback and through [createJobCard] without an exception, and
    an absent text field is printed as [undefined].  A record whose
    [languages] or [tools] is absent makes [createJobCard] raise a
    [TypeError], and makes the filter callback raise one as soon as a
    filter is active; with no active filter the callback does not look at
    the record. *)
Theorem absent_fields (job : value) (F : list filter) :
  (renderable job = true ->
     (exists html, createJobCard job = Ok html)
     /\ job_passes F job = Ok (matches_allb F job)
     /\ forall props name,
          job = VObj props -> lookup name props = None ->
          interpolate job name = Ok "undefined")
  /\ (field job "languages" = VUndef \/ field job "tools" = VUndef ->
        createJobCard job = Throw TypeError
        /\ (F <> [] -> job_passes F job = Throw TypeError)
        /\ job_passes [] job = Ok true).
Proof.
  split.
  - intros H. split; [|split].
    + now apply createJobCard_renderable.
    + apply job_passes_matches. now apply renderable_inv.
    + intros props name -> Hname. now apply interpolate_absent.
  - intros H. split; [|split].
    + unfold createJobCard. now rewrite (job_tags_absent_list job H).
    + intros HF. unfold job_passes. destruct F as [|f F]; [congruence|].
      cbn [List.length Nat.eqb]. now rewrite (job_tags_absent_list job H).
    + reflexivity.
Qed.

(** ** The renderers as functions of the globals *)

Lemma renderJobs_run (st : state) :
  renderJobs st =
  match rendered_listing (jobs st) (activeFilters st) with
  | Ok html => (Ok tt, with_jobListings html st)
  | Throw e => (Throw e, st)
  end.
Proof.
  unfold renderJobs, rendered_listing, bind, get_state, lift, modify.
  destruct (filteredJobs (jobs st) (activeFilters st)) as [visible|e];
    cbn [rbind]; [|reflexivity].
  destruct (map_result createJobCard visible) as [cards|e]; reflexivity.
Qed.

Lemma updateFilterBar_run (st : state) :
  updateFilterBar st = (Ok tt, bar_updated st).
Proof.
  unfold updateFilterBar, bar_updated, bind, get_state, modify.
  destruct (activeFilters st); reflexivity.
Qed.

Lemma rerender_run (st : state) :
  rerender st =
  match rendered_listing (jobs st) (activeFilters st) with
  | Ok html => (Ok tt, with_jobListings html (bar_updated st))
  | Throw e => (Throw e, bar_updated st)
  end.
Proof.
  unfold rerender, bind. rewrite updateFilterBar_run, renderJobs_run.
  destruct st as [F js l d t c]. destruct F; reflexivity.
Qed.

Lemma bar_updated_globals (st : state) :
  jobs (bar_updated st) = jobs st
  /\ activeFilters (bar_updated st) = activeFilters st.
Proof.
  destruct st as [F js l d t c]. destruct F; split; reflexivity.
Qed.

(** Rendering again changes nothing. *)
Lemma rerender_in_sync (st : state) : in_sync (exec rerender st).
Proof.
  unfold in_sync, exec. rewrite (rerender_run st).
  destruct (rendered_listing (jobs st) (activeFilters st)) as [html|e] eqn:E;
    cbn [snd]; rewrite rerender_run.
  - destruct st as [F js l d t c]. destruct F; simpl in *; rewrite E; reflexivity.
  - destruct st as [F js l d t c]. destruct F; simpl in *; rewrite E; reflexivity.
Qed.

Lemma with_activeFilters_same (st : state) :
  with_activeFilters (activeFilters st) st = st.
Proof. destruct st; reflexivity. Qed.

Lemma addFilter_run (f : filter) (st : state) :
  addFilter f st
  = rerender (with_activeFilters (set_add filter_same f (activeFilters st)) st).
Proof. reflexivity. Qed.

Lemma removeFilter_run (f : filter) (st : state) :
  removeFilter f st
  = rerender (with_activeFilters (set_delete filter_same f (activeFilters st)) st).
Proof. reflexivity. Qed.

Lemma clearFilters_run (st : state) :
  clearFilters st = rerender (with_activeFilters [] st).
Proof. reflexivity. Qed.

Lemma rerender_globals (st : state) :
  jobs (exec rerender st) = jobs st
  /\ activeFilters (exec rerender st) = activeFilters st.
Proof.
  unfold exec. rewrite rerender_run.
  destruct (rendered_listing (jobs st) (activeFilters st));
    cbn [snd]; destruct st as [F js l d t c]; destruct F; split; reflexivity.
Qed.

Lemma renderJobs_globals (st : state) :
  jobs (exec renderJobs st) = jobs st
  /\ activeFilters (exec renderJobs st) = activeFilters st.
Proof.
  unfold exec. rewrite renderJobs_run.
  destruct (rendered_listing (jobs st) (activeFilters st));
    split; reflexivity.
Qed.

Lemma fetchJobs_activeFilters (o : fetch_outcome) (st : state) :
  activeFilters (exec (fetchJobs o) st) = activeFilters st.
Proof.
  unfold exec, fetchJobs, try_catch.
  destruct o as [e|[] [v|e]]; try reflexivity.
  cbn [negb]. unfold bind at 1. cbn [modify].
  rewrite renderJobs_run.
  destruct (rendered_listing _ _); reflexivity.
Qed.

Lemma onDocumentClick_jobs (target : element) (st : state) :
  jobs (exec (onDocumentClick target) st) = jobs st.
Proof.
  assert (Hadd : forall f s, jobs (exec (addFilter f) s) = jobs s).
  { intros f s. unfold exec. rewrite addFilter_run.
    now destruct (rerender_globals
                    (with_activeFilters (set_add filter_same f (activeFilters s)) s)). }
  assert (Hrem : forall f s, jobs (exec (removeFilter f) s) = jobs s).
  { intros f s. unfold exec. rewrite removeFilter_run.
    now destruct (rerender_globals
                    (with_activeFilters (set_delete filter_same f (activeFilters s)) s)). }
  unfold exec, onDocumentClick, bind.
  destruct (has_class "filter-tag" target), (has_class "btn-close" target).
  - specialize (Hadd (dataset_tag target) st). unfold exec in Hadd.
    destruct (addFilter (dataset_tag target) st) as [[[]|e] st1]; cbn [snd] in *.
    + specialize (Hrem (dataset_filter target) st1). unfold exec in Hrem.
      congruence.
    + assumption.
  - specialize (Hadd (dataset_tag target) st). unfold exec in Hadd.
    destruct (addFilter (dataset_tag target) st) as [[[]|e] st1]; cbn [snd] in *;
      assumption.
  - apply (Hrem (dataset_filter target) st).
  - reflexivity.
Qed.

(** C9.  The renderers leave both globals as they are; every transition of
    the filters leaves [jobs] as it is, and [fetchJobs] leaves
    [activeFilters] as it is. *)
Theorem globals_frame (st : state) :
  (jobs (exec renderJobs st) = jobs st
   /\ activeFilters (exec renderJobs st) = activeFilters st)
  /\ (jobs (exec updateFilterBar st) = jobs st
      /\ activeFilters (exec updateFilterBar st) = activeFilters st)
  /\ (forall job, exec (lift (createJobCard job)) st = st)
  /\ (forall f, jobs (exec (addFilter f) st) = jobs st)
  /\ (forall f, jobs (exec (removeFilter f) st) = jobs st)
  /\ jobs (exec clearFilters st) = jobs st
  /\ (forall target, jobs (exec (onDocumentClick target) st) = jobs st)
  /\ (forall o, activeFilters (exec (fetchJobs o) st) = activeFilters st).
Proof.
  repeat split.
  - apply renderJobs_globals.
  - apply renderJobs_globals.
  - unfold exec. rewrite updateFilterBar_run. apply bar_updated_globals.
  - unfold exec. rewrite updateFilterBar_run. apply bar_updated_globals.
  - intros f. unfold exec. rewrite addFilter_run.
    now destruct (rerender_globals
                    (with_activeFilters (set_add filter_same f (activeFilters st)) st)).
  - intros f. unfold exec. rewrite removeFilter_run.
    now destruct (rerender_globals
                    (with_activeFilters (set_delete filter_same f (activeFilters st)) st)).
  - unfold exec. rewrite clearFilters_run.
    now destruct (rerender_globals (with_activeFilters [] st)).
  - intros target. apply onDocumentClick_jobs.
  - intros o. apply fetchJobs_activeFilters.
Qed.

(** ** The data loader *)

(** C3.  When the fetch fails (no response, a status that is not a
    success, a body that is not JSON), [fetchJobs] returns normally, has
    passed the failure to [console.error], and has changed nothing else:
    [jobs] is what it was, the empty array when the page has just
    loaded. *)
Theorem fetchJobs_failure (o : fetch_outcome) (e : exn) (st : state) :
  fetch_fails o e ->
  outcome (fetchJobs o) st = Ok tt
  /\ console (exec (fetchJobs o) st)
     = (console st ++ [("Error fetching jobs:", e)])%list
  /\ jobs (exec (fetchJobs o) st) = jobs st
  /\ (jobs st = VArr [] -> jobs (exec (fetchJobs o) st) = VArr [])
  /\ activeFilters (exec (fetchJobs o) st) = activeFilters st
  /\ jobListings_innerHTML (exec (fetchJobs o) st) = jobListings_innerHTML st
  /\ filterBar_display (exec (fetchJobs o) st) = filterBar_display st
  /\ filterTags_innerHTML (exec (fetchJobs o) st) = filterTags_innerHTML st.
Proof.
  intros H. destruct H; repeat split; auto.
Qed.

(** A body that is JSON but no array is not such a failure: it is assigned
    to [jobs] before [renderJobs] raises, and the exception is logged. *)
Lemma fetchJobs_not_an_array (v : value) (st : state) :
  is_array v = false ->
  outcome (fetchJobs (FetchResponse true (JsonParsed v))) st = Ok tt
  /\ jobs (exec (fetchJobs (FetchResponse true (JsonParsed v))) st) = v
  /\ console (exec (fetchJobs (FetchResponse true (JsonParsed v))) st)
     = (console st ++ [("Error fetching jobs:", TypeError)])%list.
Proof.
  intros Hv.
  assert (R : fetchJobs (FetchResponse true (JsonParsed v)) st
              = console_error "Error fetching jobs:" TypeError (with_jobs v st)).
  { unfold fetchJobs, try_catch. cbn [negb]. unfold bind. cbn [modify].
    rewrite renderJobs_run.
    assert (E : rendered_listing v (activeFilters st) = Throw TypeError).
    { unfold rendered_listing. destruct v; try reflexivity; discriminate. }
    destruct st as [F js l d t c]. cbn [jobs activeFilters with_jobs] in *.
    now rewrite E. }
  unfold outcome, exec. rewrite R. repeat split.
Qed.

(** ** The filter bar *)



(** ** Clearing the filters *)

Lemma rendered_listing_all (L : list value) :
  Forall (fun job => renderable job = true) L ->
  exists cards,
    Forall2 (fun job card => createJobCard job = Ok card) L cards
    /\ rendered_listing (VArr L) [] = Ok (join_empty cards).
Proof.
  intros HL. unfold rendered_listing, filteredJobs.
  rewrite filter_result_no_filter. cbn [rbind].
  destruct (map_result_defined createJobCard L) as (cards & Hall & E).
  { eapply Forall_impl; [|exact HL]. intros job. apply createJobCard_renderable. }
  exists cards. rewrite E. split; [assumption | reflexivity].
Qed.

(** C4.  Whatever the active filters were, the listener of
    [#clear-filters] leaves none and hides the bar; and when [jobs] is a
    list of renderable records it returns normally with a job list that
    holds the card of every job, in order. *)
Theorem clearFilters_shows_all (st : state) :
  activeFilters (exec clearFilters st) = []
  /\ filterBar_display (exec clearFilters st) = "none"
  /\ (forall L, jobs st = VArr L ->
        Forall (fun job => renderable job = true) L ->
        outcome clearFilters st = Ok tt
        /\ filteredJobs (jobs (exec clearFilters st))
                        (activeFilters (exec clearFilters st)) = Ok L
        /\ exists cards,
             Forall2 (fun job card => createJobCard job = Ok card) L cards
             /\ jobListings_innerHTML (exec clearFilters st)
                = join_empty cards).
Proof.
  unfold exec, outcome. rewrite clearFilters_run, rerender_run.
  cbn [activeFilters jobs with_activeFilters].
  split; [|split].
  - destruct (rendered_listing (jobs st) []); reflexivity.
  - destruct (rendered_listing (jobs st) []); reflexivity.
  - intros L HL Hren. rewrite HL.
    destruct (rendered_listing_all L Hren) as (cards & Hall & E).
    rewrite E. cbn [fst snd]. split; [reflexivity|].
    split.
    { destruct st as [F js l d t c]. cbn [jobs] in HL. subst js.
      exact (filter_result_no_filter L). }
    exists cards. split; [assumption | reflexivity].
Qed.

(** ** Adding and removing *)

(** C7.  Adding a filter that is already active runs the two renderers on
    unchanged globals: the set of active filters is what it was, and on a
    page that shows what the renderers write for the current globals
    nothing at all changes. *)
Theorem addFilter_present (f : filter) (st : state) :
  In f (activeFilters st) ->
  addFilter f st = rerender st
  /\ activeFilters (exec (addFilter f) st) = activeFilters st
  /\ (in_sync st -> exec (addFilter f) st = st).
Proof.
  intros Hin.
  assert (E : addFilter f st = rerender st).
  { rewrite addFilter_run, (set_add_present f _ Hin).
    now rewrite with_activeFilters_same. }
  split; [assumption|]. unfold exec. rewrite E. split.
  - apply rerender_globals.
  - intros Hs. exact Hs.
Qed.

(** ** Reachable pages *)

Lemma in_sync_iff (st : state) :
  in_sync st <->
  bar_updated st = st
  /\ forall html,
       rendered_listing (jobs st) (activeFilters st) = Ok html ->
       jobListings_innerHTML st = html.
Proof.
  unfold in_sync, exec. rewrite rerender_run.
  destruct st as [F js l d t c]. cbn [jobs activeFilters jobListings_innerHTML].
  destruct (rendered_listing js F) as [html|e]; cbn [snd];
    destruct F as [|f F]; cbn; split.
  - intros H. injection H as -> ->. split; [reflexivity|].
    intros h Hh. now injection Hh.
  - intros [H Hl]. injection H as ->. now rewrite (Hl html eq_refl).
  - intros H. injection H as -> -> ->. split; [reflexivity|].
    intros h Hh. now injection Hh.
  - intros [H Hl]. injection H as -> ->. now rewrite (Hl html eq_refl).
  - intros H. split; [assumption | discriminate].
  - now intros [H _].
  - intros H. split; [assumption | discriminate].
  - now intros [H _].
Qed.

(** Whether the filter bar is up to date depends on the active filters
    and on the bar alone. *)
Lemma bar_updated_fixed F js l d t c js' l' c' :
  bar_updated (mkState F js l d t c) = mkState F js l d t c ->
  bar_updated (mkState F js' l' d t c') = mkState F js' l' d t c'.
Proof.
  destruct F; unfold bar_updated, with_display, with_filterTags; cbn;
    intros H; injection H; intros; congruence.
Qed.

Lemma console_error_in_sync (label : string) (e : exn) (st : state) :
  in_sync st -> in_sync (exec (console_error label e) st).
Proof.
  rewrite !in_sync_iff. destruct st as [F js l d t c].
  unfold exec, console_error, modify. cbn. intros [Hb Hl]. split.
  - now apply (bar_updated_fixed F js l d t c).
  - assumption.
Qed.

Lemma fetchJobs_in_sync (o : fetch_outcome) (st : state) :
  in_sync st -> in_sync (exec (fetchJobs o) st).
Proof.
  intros Hs.
  destruct o as [e|[] [v|e]];
    try (apply (console_error_in_sync "Error fetching jobs:" _ st Hs)).
  unfold exec, fetchJobs, try_catch. cbn [negb]. unfold bind at 1.
  cbn [modify]. rewrite renderJobs_run.
  apply in_sync_iff in Hs. destruct Hs as [Hb _].
  destruct st as [F js l d t c].
  cbn [jobs activeFilters with_jobs jobListings_innerHTML filterBar_display
       filterTags_innerHTML console].
  destruct (rendered_listing v F) as [html|e] eqn:E; cbn [snd].
  - apply in_sync_iff. cbn. split.
    + now apply (bar_updated_fixed F js l d t c).
    + intros h Hh. congruence.
  - apply (console_error_in_sync "Error fetching jobs:" e
             (mkState F v l d t c)).
    apply in_sync_iff. cbn. split.
    + now apply (bar_updated_fixed F js l d t c).
    + intros h Hh. congruence.
Qed.

Lemma onDocumentClick_cases (target : element) (st : state) :
  exec (onDocumentClick target) st = st
  \/ exists st0, exec (onDocumentClick target) st = exec rerender st0.
Proof.
  unfold exec, onDocumentClick, bind.
  destruct (has_class "filter-tag" target), (has_class "btn-close" target).
  - right. rewrite addFilter_run.
    destruct (rerender _) as [[[]|e] st1] eqn:E.
    + rewrite removeFilter_run. eauto.
    + eexists. rewrite E. reflexivity.
  - right. rewrite addFilter_run.
    destruct (rerender _) as [[[]|e] st1] eqn:E;
      eexists; rewrite E; reflexivity.
  - right. cbv beta iota delta [ret]. rewrite removeFilter_run. eauto.
  - now left.
Qed.

(** Once a filter is active, the page shows what the renderers write for
    the current globals. *)
Lemma reachable_in_sync (st : state) :
  reachable st -> activeFilters st <> [] -> in_sync st.
Proof.
  induction 1 as [listing display chips | st ev Hr IH].
  - intros H. now elim H.
  - destruct ev as [target | button | o]; cbn [handle].
    + destruct (onDocumentClick_cases target st) as [-> | [st0 ->]].
      * assumption.
      * intros _. apply rerender_in_sync.
    + destruct (onDocumentClick_cases button (exec clearFilters st))
        as [-> | [st0 ->]]; intros _.
      * unfold exec. rewrite clearFilters_run. apply rerender_in_sync.
      * apply rerender_in_sync.
    + rewrite fetchJobs_activeFilters. intros H.
      apply fetchJobs_in_sync. now apply IH.
Qed.

Lemma addFilter_activeFilters (f : filter) (st : state) :
  activeFilters (exec (addFilter f) st)
  = set_add filter_same f (activeFilters st).
Proof.
  unfold exec. rewrite addFilter_run.
  now destruct (rerender_globals
                  (with_activeFilters (set_add filter_same f (activeFilters st)) st)).
Qed.

Lemma removeFilter_activeFilters (f : filter) (st : state) :
  activeFilters (exec (removeFilter f) st)
  = set_delete filter_same f (activeFilters st).
Proof.
  unfold exec. rewrite removeFilter_run.
  now destruct (rerender_globals
                  (with_activeFilters (set_delete filter_same f (activeFilters st)) st)).
Qed.

Lemma onDocumentClick_NoDup (target : element) (st : state) :
  NoDup (activeFilters st) ->
  NoDup (activeFilters (exec (onDocumentClick target) st)).
Proof.
  intros Hnd.
  pose proof (addFilter_activeFilters (dataset_tag target) st) as Ha.
  unfold exec, onDocumentClick, bind, ret in *.
  destruct (has_class "filter-tag" target), (has_class "btn-close" target).
  - destruct (addFilter (dataset_tag target) st) as [[[]|e] st1];
      cbn [snd] in *.
    + pose proof (removeFilter_activeFilters (dataset_filter target) st1) as Hr.
      unfold exec in Hr. rewrite Hr, Ha.
      now apply set_delete_NoDup, set_add_NoDup.
    + rewrite Ha. now apply set_add_NoDup.
  - destruct (addFilter (dataset_tag target) st) as [[[]|e] st1];
      cbn [snd] in *; rewrite Ha; now apply set_add_NoDup.
  - pose proof (removeFilter_activeFilters (dataset_filter target) st) as Hr.
    unfold exec in Hr. rewrite Hr. now apply set_delete_NoDup.
  - assumption.
Qed.

(** The list that stands for [activeFilters] never repeats an element. *)
Lemma reachable_NoDup (st : state) :
  reachable st -> NoDup (activeFilters st).
Proof.
  induction 1 as [listing display chips | st ev Hr IH].
  - constructor.
  - destruct ev as [target | button | o]; cbn [handle].
    + now apply onDocumentClick_NoDup.
    + apply onDocumentClick_NoDup.
      unfold exec. rewrite clearFilters_run.
      destruct (rerender_globals (with_activeFilters [] st)) as [_ E].
      unfold exec in E. rewrite E. constructor.
    + now rewrite fetchJobs_activeFilters.
Qed.

(** C8, as amended.  Removing a filter that is not active runs the two
    renderers on unchanged globals, and the set of active filters is what
    it was.  Nothing at all changes on a page that shows what the renderers
    write for the current globals: such is every page the script can reach
    with a filter active, and every page a transition of the filters
    (adding, removing, clearing) has just left. *)
Theorem removeFilter_absent (f : filter) (st : state) :
  ~ In f (activeFilters st) ->
  removeFilter f st = rerender st
  /\ activeFilters (exec (removeFilter f) st) = activeFilters st
  /\ (in_sync st -> exec (removeFilter f) st = st)
  /\ (reachable st -> activeFilters st <> [] ->
      exec (removeFilter f) st = st)
  /\ (forall st0 g,
        st = exec (addFilter g) st0 \/ st = exec (removeFilter g) st0
        \/ st = exec clearFilters st0 ->
        exec (removeFilter f) st = st).
Proof.
  intros Hnin.
  assert (E : removeFilter f st = rerender st).
  { rewrite removeFilter_run, (set_delete_absent f _ Hnin).
    now rewrite with_activeFilters_same. }
  assert (X : exec (removeFilter f) st = exec rerender st).
  { unfold exec. now rewrite E. }
  split; [assumption|]. rewrite X.
  split; [apply rerender_globals|].
  split; [intros Hs; exact Hs|]. split.
  - intros Hr HF. exact (reachable_in_sync st Hr HF).
  - intros st0 g H. change (in_sync st).
    destruct H as [-> | [-> | ->]]; unfold exec.
    + rewrite addFilter_run. apply rerender_in_sync.
    + rewrite removeFilter_run. apply rerender_in_sync.
    + rewrite clearFilters_run. apply rerender_in_sync.
Qed.

(** ** Tags in the markup *)



(** * Further properties of the script *)

(** ** What the renderers can raise *)

Lemma get_field_throws (v : value) (name : string) (e : exn) :
  get_field v name = Throw e -> e = TypeError.
Proof.
  destruct v; simpl; try discriminate; try (intros H; now injection H).
  destruct (lookup name props); discriminate.
Qed.

(** Induction on values, with the property known of the elements of an
    array. *)
Fixpoint value_elements_ind (P : value -> Prop)
  (HUndef : P VUndef) (HNull : P VNull) (HBool : forall b, P (VBool b))
  (HNum : forall n, P (VNum n)) (HStr : forall s, P (VStr s))
  (HArr : forall l, Forall P l -> P (VArr l))
  (HObj : forall props, P (VObj props))
  (v : value) {struct v} : P v :=
  match v with
  | VUndef => HUndef
  | VNull => HNull
  | VBool b => HBool b
  | VNum n => HNum n
  | VStr s => HStr s
  | VArr l =>
      HArr l
        ((fix all (l : list value) : Forall P l :=
            match l with
            | [] => Forall_nil P
            | x :: t =>
                Forall_cons x
                  (value_elements_ind P HUndef HNull HBool HNum HStr HArr HObj x)
                  (all t)
            end) l)
  | VObj props => HObj props
  end.

Lemma to_string_throws (v : value) :
  forall e, to_string v = Throw e -> e = TypeError.
Proof.
  induction v as [| |[]|n|s|l IHl|props] using value_elements_ind;
    intros e; simpl; try discriminate.
  - match goal with |- ?f l = _ -> _ => set (join := f) end.
    assert (base : join [] = Ok "") by reflexivity.
    assert (step : forall x t,
               join (x :: t)
               = let? s := match x with
                           | VUndef | VNull => Ok ""
                           | _ => to_string x
                           end in
                 match t with
                 | [] => Ok s
                 | _ :: _ => let? r := join t in Ok (s ++ "," ++ r)
                 end) by reflexivity.
    clearbody join. revert e.
    induction IHl as [|x t Hx _ IHt]; intros e.
    + rewrite base. discriminate.
    + rewrite step.
      destruct (match x with
                | VUndef | VNull => Ok ""
                | _ => to_string x
                end) as [sx|ex] eqn:Ex; cbn [rbind].
      * destruct t as [|y t]; [discriminate|].
        destruct (join (y :: t)) as [r|er]; cbn [rbind]; [discriminate|].
        intros H. injection H as <-. now apply IHt.
      * intros H. injection H as <-.
        destruct x; try discriminate; now apply (Hx _ Ex).
  - destruct (lookup "toString" props); [|discriminate].
    intros H. now injection H.
Qed.

Ltac split_bind lem :=
  match goal with
  | |- rbind ?c _ = Throw _ -> _ =>
      let E := fresh "E" in
      let H := fresh "H" in
      destruct c eqn:E; cbn [rbind];
      [ | intros H; injection H as <-; now apply lem in E ]
  end.

Lemma job_tags_throws (job : value) (e : exn) :
  job_tags job = Throw e -> e = TypeError.
Proof.
  unfold job_tags.
  split_bind get_field_throws. split_bind get_field_throws.
  split_bind get_field_throws. split_bind spread_throws.
  split_bind get_field_throws. split_bind spread_throws.
  discriminate.
Qed.

Lemma tag_badge_throws (tag : value) (e : exn) :
  tag_badge tag = Throw e -> e = TypeError.
Proof.
  unfold tag_badge. split_bind to_string_throws. discriminate.
Qed.

Lemma interpolate_throws (job : value) (name : string) (e : exn) :
  interpolate job name = Throw e -> e = TypeError.
Proof.
  unfold interpolate. split_bind get_field_throws. apply to_string_throws.
Qed.

Lemma map_result_throws {A B} (f : A -> result B) (l : list A) (e : exn) :
  (forall x e', f x = Throw e' -> e' = TypeError) ->
  map_result f l = Throw e -> e = TypeError.
Proof.
  intros Hf. revert e. induction l as [|x t IH]; intros e; simpl;
    [discriminate|].
  split_bind Hf.
  destruct (map_result f t) as [ys|e']; cbn [rbind]; [discriminate|].
  intros H. injection H as <-. now apply IH.
Qed.

Lemma filter_result_throws {A} (p : A -> result bool) (l : list A) (e : exn) :
  (forall x e', p x = Throw e' -> e' = TypeError) ->
  filter_result p l = Throw e -> e = TypeError.
Proof.
  intros Hp. revert e. induction l as [|x t IH]; intros e; simpl;
    [discriminate|].
  split_bind Hp.
  destruct (filter_result p t) as [r|e']; cbn [rbind]; [discriminate|].
  intros H. injection H as <-. now apply IH.
Qed.

Lemma tag_badges_throw (tags : list value) (e : exn) :
  map_result tag_badge tags = Throw e -> e = TypeError.
Proof. apply map_result_throws. apply tag_badge_throws. Qed.

Lemma createJobCard_throws (job : value) (e : exn) :
  createJobCard job = Throw e -> e = TypeError.
Proof.
  unfold createJobCard.
  split_bind job_tags_throws.
  split_bind tag_badges_throw.
  split_bind interpolate_throws. split_bind interpolate_throws.
  split_bind get_field_throws.
  split_bind get_field_throws. split_bind interpolate_throws.
  split_bind interpolate_throws. split_bind interpolate_throws.
  split_bind interpolate_throws. discriminate.
Qed.

Lemma job_passes_throws (F : list filter) (job : value) (e : exn) :
  job_passes F job = Throw e -> e = TypeError.
Proof.
  unfold job_passes. destruct (Nat.eqb (List.length F) 0); [discriminate|].
  split_bind job_tags_throws. discriminate.
Qed.

Lemma cards_throw (visible : list value) (e : exn) :
  map_result createJobCard visible = Throw e -> e = TypeError.
Proof. apply map_result_throws. apply createJobCard_throws. Qed.

Lemma filter_callback_throws (F : list filter) (l : list value) (e : exn) :
  filter_result (job_passes F) l = Throw e -> e = TypeError.
Proof. apply filter_result_throws. apply job_passes_throws. Qed.

Lemma rendered_listing_throws (js : value) (F : list filter) (e : exn) :
  rendered_listing js F = Throw e -> e = TypeError.
Proof.
  unfold rendered_listing, filteredJobs.
  destruct js; cbn [rbind]; try (intros H; now injection H).
  split_bind (filter_callback_throws F).
  split_bind cards_throw.
  discriminate.
Qed.

Lemma filter_result_raises {A} (p : A -> result bool) (l : list A) (x : A) :
  In x l -> (exists e, p x = Throw e) ->
  exists e, filter_result p l = Throw e.
Proof.
  intros Hin [e He]. induction l as [|y t IH]; [contradiction|].
  simpl. destruct Hin as [-> | Hin].
  - rewrite He. cbn [rbind]. eauto.
  - destruct (p y) as [b|e']; cbn [rbind]; [|eauto].
    destruct (IH Hin) as [e'' ->]. cbn [rbind]. eauto.
Qed.

Lemma map_result_raises {A B} (f : A -> result B) (l : list A) (x : A) :
  In x l -> (exists e, f x = Throw e) ->
  exists e, map_result f l = Throw e.
Proof.
  intros Hin [e He]. induction l as [|y t IH]; [contradiction|].
  simpl. destruct Hin as [-> | Hin].
  - rewrite He. cbn [rbind]. eauto.
  - destruct (f y) as [b|e']; cbn [rbind]; [|eauto].
    destruct (IH Hin) as [e'' ->]. cbn [rbind]. eauto.
Qed.

Lemma rendered_listing_record_without_list
  (L : list value) (F : list filter) (job : value) :
  In job L ->
  field job "languages" = VUndef \/ field job "tools" = VUndef ->
  rendered_listing (VArr L) F = Throw TypeError.
Proof.
  intros Hin Hbad.
  assert (C : createJobCard job = Throw TypeError)
    by (unfold createJobCard; now rewrite (job_tags_absent_list job Hbad)).
  assert (R : exists e, rendered_listing (VArr L) F = Throw e).
  { unfold rendered_listing, filteredJobs. destruct F as [|f F].
    - rewrite filter_result_no_filter. cbn [rbind].
      destruct (map_result_raises createJobCard L job Hin
                  (ex_intro _ TypeError C)) as [e ->].
      cbn [rbind]. eauto.
    - assert (P : job_passes (f :: F) job = Throw TypeError)
        by (unfold job_passes; cbn [List.length Nat.eqb];
            now rewrite (job_tags_absent_list job Hbad)).
      destruct (filter_result_raises (job_passes (f :: F)) L job Hin
                  (ex_intro _ TypeError P)) as [e ->].
      cbn [rbind]. eauto. }
  destruct R as [e R]. rewrite R. f_equal.
  now apply (rendered_listing_throws (VArr L) F).
Qed.

(** X4.  When [renderJobs] raises, the exception is a [TypeError] and the
    page is exactly what it was: [innerHTML] is assigned only after every
    card has been built. *)
Theorem renderJobs_raises_before_writing (st : state) (e : exn) :
  outcome renderJobs st = Throw e ->
  e = TypeError /\ exec renderJobs st = st.
Proof.
  unfold outcome, exec. rewrite renderJobs_run.
  destruct (rendered_listing (jobs st) (activeFilters st)) as [html|e'] eqn:E;
    cbn [fst snd]; [discriminate|].
  intros H. injection H as <-. split; [|reflexivity].
  now apply rendered_listing_throws in E.
Qed.

(** X5.  One record without [languages] or without [tools] anywhere in
    [jobs] makes [renderJobs] raise a [TypeError] whatever the active
    filters are, so that no card at all is written. *)
Theorem record_without_list_blocks_render
  (st : state) (L : list value) (job : value) :
  jobs st = VArr L -> In job L ->
  field job "languages" = VUndef \/ field job "tools" = VUndef ->
  outcome renderJobs st = Throw TypeError /\ exec renderJobs st = st.
Proof.
  intros HL Hin Hbad. unfold outcome, exec. rewrite renderJobs_run, HL.
  rewrite (rendered_listing_record_without_list L _ job Hin Hbad).
  split; reflexivity.
Qed.

(** ** The data loader, further *)

Lemma rendered_listing_renderable (L : list value) (F : list filter) :
  Forall (fun job => renderable job = true) L ->
  exists cards,
    Forall2 (fun job card => createJobCard job = Ok card)
            (List.filter (matches_allb F) L) cards
    /\ rendered_listing (VArr L) F = Ok (join_empty cards).
Proof.
  intros HL. unfold rendered_listing, filteredJobs.
  rewrite (filter_result_total (job_passes F) (matches_allb F)).
  - cbn [rbind].
    destruct (map_result_defined createJobCard (List.filter (matches_allb F) L))
      as (cards & Hall & E).
    + apply Forall_forall. intros job Hjob. apply filter_In in Hjob as [Hjob _].
      rewrite Forall_forall in HL. now apply createJobCard_renderable, HL.
    + exists cards. rewrite E. split; [assumption | reflexivity].
  - eapply Forall_impl; [|exact HL]. intros job Hjob.
    apply job_passes_matches. now apply renderable_inv.
Qed.

(** X1.  [fetchJobs] never lets an exception escape, whatever the fetch
    gives and whatever the state is, also when rendering the document
    raises; and it calls [console.error] at most once. *)
Theorem fetchJobs_never_raises (o : fetch_outcome) (st : state) :
  outcome (fetchJobs o) st = Ok tt
  /\ (console (exec (fetchJobs o) st) = console st
      \/ exists e,
           console (exec (fetchJobs o) st)
           = (console st ++ [("Error fetching jobs:", e)])%list).
Proof.
  unfold outcome, exec, fetchJobs, try_catch.
  destruct o as [e|[] [v|e]]; cbn [negb];
    try solve [split; [reflexivity | right; eexists; reflexivity]].
  unfold bind. cbn [modify]. rewrite renderJobs_run.
  destruct (rendered_listing _ _) as [html|e]; split; try reflexivity.
  - now left.
  - right. now exists e.
Qed.

(** X2.  When the fetch gives a successful response whose body is an array
    of renderable records, [fetchJobs] stores the array in [jobs], logs
    nothing, leaves the filters and the filter bar as they are, and writes
    the cards of the records that pass the filters active at that moment,
    in order. *)
Theorem fetchJobs_success (L : list value) (st : state) :
  Forall (fun job => renderable job = true) L ->
  outcome (fetchJobs (FetchResponse true (JsonParsed (VArr L)))) st = Ok tt
  /\ jobs (exec (fetchJobs (FetchResponse true (JsonParsed (VArr L)))) st)
     = VArr L
  /\ console (exec (fetchJobs (FetchResponse true (JsonParsed (VArr L)))) st)
     = console st
  /\ filterBar_display
       (exec (fetchJobs (FetchResponse true (JsonParsed (VArr L)))) st)
     = filterBar_display st
  /\ filterTags_innerHTML
       (exec (fetchJobs (FetchResponse true (JsonParsed (VArr L)))) st)
     = filterTags_innerHTML st
  /\ exists cards,
       Forall2 (fun job card => createJobCard job = Ok card)
               (List.filter (matches_allb (activeFilters st)) L) cards
       /\ jobListings_innerHTML
            (exec (fetchJobs (FetchResponse true (JsonParsed (VArr L)))) st)
          = join_empty cards.
Proof.
  intros HL.
  destruct (rendered_listing_renderable L (activeFilters st) HL)
    as (cards & Hall & E).
  assert (R : fetchJobs (FetchResponse true (JsonParsed (VArr L))) st
              = (Ok tt, with_jobListings (join_empty cards)
                                         (with_jobs (VArr L) st))).
  { unfold fetchJobs, try_catch. cbn [negb]. unfold bind. cbn [modify].
    rewrite renderJobs_run.
    destruct st as [F js l d t c]. cbn [jobs activeFilters with_jobs] in *.
    now rewrite E. }
  unfold outcome, exec. rewrite R. cbn [fst snd].
  repeat (split; [reflexivity|]).
  exists cards. split; [assumption | reflexivity].
Qed.

(** X3.  Once the body has parsed, the document replaces [jobs] whatever it
    is: the assignment comes before [renderJobs].  When the document is no
    array, [renderJobs] raises a [TypeError], which is caught and logged,
    and the job list is left as it was. *)
Theorem fetchJobs_stores_any_document (v : value) (st : state) :
  jobs (exec (fetchJobs (FetchResponse true (JsonParsed v))) st) = v
  /\ (is_array v = false ->
      outcome (fetchJobs (FetchResponse true (JsonParsed v))) st = Ok tt
      /\ console (exec (fetchJobs (FetchResponse true (JsonParsed v))) st)
         = (console st ++ [("Error fetching jobs:", TypeError)])%list
      /\ jobListings_innerHTML
           (exec (fetchJobs (FetchResponse true (JsonParsed v))) st)
         = jobListings_innerHTML st).
Proof.
  split.
  - unfold exec, fetchJobs, try_catch. cbn [negb]. unfold bind.
    cbn [modify]. rewrite renderJobs_run.
    destruct (rendered_listing _ _); destruct st; reflexivity.
  - intros Hv.
    assert (R : fetchJobs (FetchResponse true (JsonParsed v)) st
                = console_error "Error fetching jobs:" TypeError
                                (with_jobs v st)).
    { unfold fetchJobs, try_catch. cbn [negb]. unfold bind. cbn [modify].
      rewrite renderJobs_run.
      assert (E : rendered_listing v (activeFilters st) = Throw TypeError).
      { unfold rendered_listing. destruct v; try reflexivity; discriminate. }
      destruct st as [F js l d t c]. cbn [jobs activeFilters with_jobs] in *.
      now rewrite E. }
    unfold outcome, exec. rewrite R. repeat split.
Qed.

(** ** The filters, further *)

Lemma forallb_same_members {A} (p : A -> bool) (l1 l2 : list A) :
  (forall x, In x l1 <-> In x l2) -> forallb p l1 = forallb p l2.
Proof.
  intros H. apply eq_true_iff_eq. rewrite !forallb_forall.
  split; intros Hp x Hx; apply Hp; now apply H.
Qed.

Lemma job_passes_same_members (F G : list filter) (job : value) :
  (forall f, In f F <-> In f G) -> job_passes F job = job_passes G job.
Proof.
  intros H. unfold job_passes.
  destruct F as [|f F], G as [|g G]; cbn [List.length Nat.eqb].
  - reflexivity.
  - exfalso. apply (H g). now left.
  - exfalso. apply (H f). now left.
  - destruct (job_tags job) as [tags|e]; cbn [rbind]; [|reflexivity].
    f_equal. now apply forallb_same_members.
Qed.

Lemma filter_result_ext {A} (p q : A -> result bool) (l : list A) :
  (forall x, p x = q x) -> filter_result p l = filter_result q l.
Proof.
  intros H. induction l as [|x t IH]; simpl; [reflexivity|].
  now rewrite H, IH.
Qed.

(** X6.  The jobs kept, and the markup written for them, depend on which
    filters are active only: not on the order in which they were clicked,
    for records of any shape. *)
Theorem filters_order_irrelevant (js : value) (F G : list filter) :
  (forall f, In f F <-> In f G) ->
  filteredJobs js F = filteredJobs js G
  /\ rendered_listing js F = rendered_listing js G.
Proof.
  intros H.
  assert (E : filteredJobs js F = filteredJobs js G).
  { unfold filteredJobs. destruct js; try reflexivity.
    apply filter_result_ext. intros job.
    now apply job_passes_same_members. }
  split; [assumption|]. unfold rendered_listing. now rewrite E.
Qed.

Lemma has_tag_true (f : filter) (job : value) :
  has_tag f job = true <-> In (filter_value f) (derived_tags job).
Proof. apply existsb_same_value_zero. Qed.

Lemma filter_andb {A} (p q : A -> bool) (l : list A) :
  List.filter (fun x => p x && q x) l = List.filter q (List.filter p l).
Proof.
  induction l as [|x t IH]; simpl; [reflexivity|].
  destruct (p x); simpl; [|assumption].
  destruct (q x); now rewrite IH.
Qed.

Lemma matches_allb_set_add (f : filter) (F : list filter) (job : value) :
  matches_allb (set_add filter_same f F) job
  = matches_allb F job && has_tag f job.
Proof.
  unfold set_add. destruct (set_has filter_same f F) eqn:E.
  - apply set_has_filter in E.
    destruct (matches_allb F job) eqn:M; [|reflexivity].
    symmetry. apply has_tag_true.
    apply matches_allb_true in M. now apply M.
  - unfold matches_allb. rewrite forallb_app. simpl.
    now rewrite andb_true_r.
Qed.

Lemma filteredJobs_set_add (L : list value) (F : list filter) (f : filter) :
  Forall (fun job => has_tag_lists job = true) L ->
  filteredJobs (VArr L) F = Ok (List.filter (matches_allb F) L)
  /\ filteredJobs (VArr L) (set_add filter_same f F)
     = Ok (List.filter (has_tag f) (List.filter (matches_allb F) L)).
Proof.
  intros HL. unfold filteredJobs. split.
  - apply filter_result_total.
    eapply Forall_impl; [|exact HL]. intros job. apply job_passes_matches.
  - rewrite <- filter_andb.
    rewrite (filter_result_total _ (matches_allb (set_add filter_same f F))).
    + f_equal. apply filter_ext. intros job. apply matches_allb_set_add.
    + eapply Forall_impl; [|exact HL]. intros job. apply job_passes_matches.
Qed.

(** X7.  Adding a filter can only narrow the list: for records with tag
    lists, the jobs kept after [f] has been added are the jobs kept before
    that have [f] among their tags, in the same order. *)
Theorem adding_a_filter_narrows (L : list value) (F : list filter) (f : filter) :
  Forall (fun job => has_tag_lists job = true) L ->
  exists before,
    filteredJobs (VArr L) F = Ok before
    /\ filteredJobs (VArr L) (set_add filter_same f F)
       = Ok (List.filter (has_tag f) before)
    /\ forall job, has_tag f job = true
                   <-> In (filter_value f) (derived_tags job).
Proof.
  intros HL. destruct (filteredJobs_set_add L F f HL) as [E1 E2].
  exists (List.filter (matches_allb F) L).
  split; [assumption|]. split; [assumption|]. intros job. apply has_tag_true.
Qed.

(** X8.  A job that is shown stays shown when one of its own tags is added
    to the filters. *)
Theorem own_tag_keeps_job (L before : list value) (F : list filter)
  (f : filter) (job : value) :
  Forall (fun job => has_tag_lists job = true) L ->
  filteredJobs (VArr L) F = Ok before ->
  In job before ->
  In (filter_value f) (derived_tags job) ->
  exists after,
    filteredJobs (VArr L) (set_add filter_same f F) = Ok after
    /\ In job after.
Proof.
  intros HL Hb Hin Htag. destruct (filteredJobs_set_add L F f HL) as [E1 E2].
  rewrite E1 in Hb. injection Hb as <-.
  eexists. split; [exact E2|].
  apply filter_In. split; [assumption | now apply has_tag_true].
Qed.

Lemma same_value_zero_never (f : filter) (v : value) :
  never_a_filter v = true -> same_value_zero (filter_value f) v = false.
Proof.
  destruct f, v; simpl; intros H; try discriminate; reflexivity.
Qed.

(** X9.  A tag that is a number, a boolean or [null] is the same as no
    filter, since a filter is a string read from an attribute (or
    [undefined]): a record all of whose tags are such values is dropped as
    soon as any filter is active. *)
Theorem non_text_tags_never_match (F : list filter) (job : value) :
  has_tag_lists job = true ->
  F <> [] ->
  forallb never_a_filter (derived_tags job) = true ->
  job_passes F job = Ok false.
Proof.
  intros Hj HF Hn. rewrite (job_passes_matches F job Hj). f_equal.
  destruct F as [|f F]; [congruence|].
  unfold matches_allb. cbn [forallb].
  replace (existsb (same_value_zero (filter_value f)) (derived_tags job))
    with false; [reflexivity|].
  symmetry. apply not_true_iff_false. intros H.
  apply existsb_exists in H as (v & Hv & Hs).
  rewrite forallb_forall in Hn.
  rewrite (same_value_zero_never f v (Hn v Hv)) in Hs. discriminate.
Qed.

Lemma globals_of_addFilter (f : filter) (st : state) :
  jobs (exec (addFilter f) st) = jobs st
  /\ console (exec (addFilter f) st) = console st.
Proof.
  unfold exec. rewrite addFilter_run, rerender_run.
  destruct (rendered_listing _ _); cbn [snd];
    destruct st as [F js l d t c]; cbn;
    destruct (set_add filter_same f F); split; reflexivity.
Qed.

Lemma console_of_addFilter (f : filter) (st : state) :
  console (exec (addFilter f) st) = console st.
Proof. apply globals_of_addFilter. Qed.

(** ** The page, further *)

(** X10.  Each renderer writes its own region and nothing else:
    [renderJobs] at most the job list, [updateFilterBar] at most the
    display of the bar and the chips. *)
Theorem renderers_write_their_region (st : state) :
  exec renderJobs st
  = with_jobListings (jobListings_innerHTML (exec renderJobs st)) st
  /\ exec updateFilterBar st
     = with_filterTags (filterTags_innerHTML (exec updateFilterBar st))
         (with_display (filterBar_display (exec updateFilterBar st)) st).
Proof.
  unfold exec. rewrite renderJobs_run, updateFilterBar_run. split.
  - destruct (rendered_listing _ _); destruct st; reflexivity.
  - destruct st as [F js l d t c]. destruct F; reflexivity.
Qed.

Lemma rerender_outcome_again (st : state) :
  outcome rerender (exec rerender st) = outcome rerender st.
Proof.
  unfold outcome, exec. rewrite (rerender_run st).
  destruct (rendered_listing (jobs st) (activeFilters st)) as [html|e] eqn:E;
    cbn [snd]; rewrite rerender_run;
    destruct st as [F js l d t c]; destruct F; simpl in *; rewrite E;
    reflexivity.
Qed.

(** X11.  Running the two renderers a second time changes nothing and ends
    the same way: what they write depends on [jobs] and [activeFilters]
    alone, never on what the page holds. *)
Theorem rendering_twice (st : state) :
  exec rerender (exec rerender st) = exec rerender st
  /\ outcome rerender (exec rerender st) = outcome rerender st.
Proof.
  split; [apply rerender_in_sync | apply rerender_outcome_again].
Qed.

(** X12.  Whatever is clicked and however the fetch ends, [activeFilters]
    never holds a filter twice. *)
Theorem filters_never_repeat (st : state) :
  reachable st -> NoDup (activeFilters st).
Proof. apply reachable_NoDup. Qed.

(** X13.  On every page the script can reach with at least one filter active,
    the bar is shown, the chip container holds the chips of the active
    filters in the order they were added, and the job list holds the
    markup of the jobs that pass them whenever that markup can be
    built. *)
Theorem reachable_page_shows_state (st : state) :
  reachable st -> activeFilters st <> [] ->
  filterBar_display st = "block"
  /\ filterTags_innerHTML st = join_empty (map filter_chip (activeFilters st))
  /\ forall html,
       rendered_listing (jobs st) (activeFilters st) = Ok html ->
       jobListings_innerHTML st = html.
Proof.
  intros Hr HF. pose proof (reachable_in_sync st Hr HF) as Hs.
  apply in_sync_iff in Hs as [Hb Hl].
  destruct st as [F js l d t c]. cbn in *.
  destruct F as [|f F]; [congruence|].
  unfold bar_updated, with_filterTags, with_display in Hb. cbn in Hb.
  injection Hb as Hd Ht. rewrite <- Hd, <- Ht.
  split; [reflexivity|]. split; [reflexivity | assumption].
Qed.

Lemma set_add_absent (f : filter) (F : list filter) :
  ~ In f F -> set_add filter_same f F = (F ++ [f])%list.
Proof.
  intros Hnin. unfold set_add.
  destruct (set_has filter_same f F) eqn:H; [|reflexivity].
  apply set_has_filter in H. contradiction.
Qed.

(** X14.  A filter that is not yet active is added after the others, and
    its chip is written after theirs. *)
Theorem addFilter_appends (f : filter) (st : state) :
  ~ In f (activeFilters st) ->
  activeFilters (exec (addFilter f) st) = (activeFilters st ++ [f])%list
  /\ filterBar_display (exec (addFilter f) st) = "block"
  /\ filterTags_innerHTML (exec (addFilter f) st)
     = join_empty (map filter_chip (activeFilters st)) ++ filter_chip f.
Proof.
  intros Hnin.
  pose proof (set_add_absent f (activeFilters st) Hnin) as E.
  unfold exec. rewrite addFilter_run, E, rerender_run.
  assert (C : join_empty (map filter_chip (activeFilters st ++ [f]))
              = join_empty (map filter_chip (activeFilters st)) ++ filter_chip f).
  { rewrite map_app, join_empty_app. f_equal.
    change (join_empty (map filter_chip [f])) with (filter_chip f ++ "").
    apply append_empty_r. }
  rewrite <- C.
  destruct (rendered_listing _ _);
    cbn [snd]; destruct st as [F js l d t c];
    cbn [activeFilters with_activeFilters] in *;
    destruct (F ++ [f])%list eqn:EF;
    try (now destruct F); repeat split.
Qed.

(** X15.  After [removeFilter] the filter is not active, and the other
    filters are active exactly as before. *)
Theorem removeFilter_removes (f : filter) (st : state) :
  ~ In f (activeFilters (exec (removeFilter f) st))
  /\ forall g, g <> f ->
       (In g (activeFilters (exec (removeFilter f) st))
        <-> In g (activeFilters st)).
Proof.
  rewrite removeFilter_activeFilters. unfold set_delete. split.
  - intros H. apply filter_In in H as [_ H].
    apply negb_true_iff in H.
    assert (T : filter_same f f = true) by now apply filter_same_true.
    congruence.
  - intros g Hg. rewrite filter_In. split; [tauto|].
    intros H. split; [assumption|]. apply negb_true_iff.
    apply not_true_iff_false. intros T. apply filter_same_true in T.
    congruence.
Qed.

Lemma set_delete_added (f : filter) (F : list filter) :
  ~ In f F -> set_delete filter_same f (F ++ [f])%list = F.
Proof.
  intros Hnin. unfold set_delete. rewrite filter_app.
  fold (set_delete filter_same f F). rewrite (set_delete_absent f F Hnin).
  simpl. assert (T : filter_same f f = true) by now apply filter_same_true.
  rewrite T. simpl. apply app_nil_r.
Qed.

(** With a filter active and a job list that renders, what the two
    renderers leave depends on the globals and the console alone. *)
Lemma rerender_depends_on_globals (st st1 : state) :
  activeFilters st <> [] -> outcome rerender st = Ok tt ->
  activeFilters st1 = activeFilters st -> jobs st1 = jobs st ->
  console st1 = console st ->
  rerender st1 = rerender st.
Proof.
  intros HF Hok Ha Hj Hc. unfold outcome in Hok.
  rewrite rerender_run in Hok. rewrite !rerender_run, Ha, Hj.
  destruct (rendered_listing (jobs st) (activeFilters st)) as [html|e];
    [|discriminate].
  destruct st as [F js l d t c], st1 as [F1 js1 l1 d1 t1 c1].
  cbn [activeFilters jobs console] in *. subst.
  destruct F; [congruence|]. reflexivity.
Qed.

(** X16.  Adding a filter and removing it again gives the page back: on a
    page in step with its globals, with another filter active and a job
    list that renders, [removeFilter f] after [addFilter f] restores the
    whole state. *)
Theorem add_then_remove_restores (f : filter) (st : state) :
  in_sync st -> activeFilters st <> [] -> ~ In f (activeFilters st) ->
  outcome rerender st = Ok tt ->
  exec (removeFilter f) (exec (addFilter f) st) = st.
Proof.
  intros Hs HF Hnin Hok.
  pose proof (addFilter_activeFilters f st) as Ha.
  rewrite (set_add_absent f _ Hnin) in Ha.
  destruct (globals_of_addFilter f st) as [Hj Hc].
  unfold exec at 1. rewrite removeFilter_run, Ha, (set_delete_added f _ Hnin).
  rewrite (rerender_depends_on_globals st _ HF Hok);
    [exact Hs | reflexivity | exact Hj | exact Hc].
Qed.

(** X17.  Removing the only active filter is the same as the listener of
    [#clear-filters]. *)
Theorem removing_the_last_filter_clears (f : filter) (st : state) :
  activeFilters st = [f] -> removeFilter f st = clearFilters st.
Proof.
  intros HF. rewrite removeFilter_run, clearFilters_run, HF.
  unfold set_delete. cbn [List.filter].
  assert (T : filter_same f f = true) by now apply filter_same_true.
  rewrite T. reflexivity.
Qed.

(** X18.  Hiding the bar does not empty it: the listener of [#clear-filters]
    leaves the markup of the chip container as it was, so that on a page
    in step with its globals the chips of the filters just cleared are
    still there, inside the hidden bar. *)
Theorem clearFilters_leaves_chips (st : state) :
  filterTags_innerHTML (exec clearFilters st) = filterTags_innerHTML st
  /\ (in_sync st -> activeFilters st <> [] ->
      filterBar_display (exec clearFilters st) = "none"
      /\ filterTags_innerHTML (exec clearFilters st)
         = join_empty (map filter_chip (activeFilters st))).
Proof.
  assert (E : filterTags_innerHTML (exec clearFilters st)
              = filterTags_innerHTML st
              /\ filterBar_display (exec clearFilters st) = "none").
  { unfold exec. rewrite clearFilters_run, rerender_run.
    cbn [activeFilters jobs with_activeFilters].
    destruct (rendered_listing (jobs st) []); destruct st; split; reflexivity. }
  destruct E as [Et Ed]. split; [assumption|].
  intros Hs HF. split; [assumption|]. rewrite Et.
  apply in_sync_iff in Hs as [Hb _].
  destruct st as [F js l d t c]. cbn [activeFilters filterTags_innerHTML] in *.
  destruct F as [|g F]; [congruence|].
  unfold bar_updated, with_filterTags, with_display in Hb.
  cbn [activeFilters jobs jobListings_innerHTML filterBar_display
       filterTags_innerHTML console] in Hb.
  now injection Hb.
Qed.

(** ** Clicks on the markup the script has written *)

Lemma onDocumentClick_filter_tag (target : element) (st : state) :
  has_class "filter-tag" target = true ->
  has_class "btn-close" target = false ->
  exec (onDocumentClick target) st = exec (addFilter (dataset_tag target)) st.
Proof.
  intros H1 H2. unfold exec, onDocumentClick, bind. rewrite H1, H2.
  destruct (addFilter (dataset_tag target) st) as [[[]|e] st1]; reflexivity.
Qed.

Lemma onDocumentClick_btn_close (target : element) (st : state) :
  has_class "filter-tag" target = false ->
  has_class "btn-close" target = true ->
  exec (onDocumentClick target) st
  = exec (removeFilter (dataset_filter target)) st.
Proof.
  intros H1 H2. unfold exec, onDocumentClick, bind. rewrite H1, H2.
  reflexivity.
Qed.



(** X21.  An element of class [filter-tag] without a [data-tag] attribute
    adds the filter [undefined].  Its chip reads [undefined]: the browser
    reads it as a [span] and a close button whose [data-filter] is the
    string of that name, and a click on that button removes that string
    instead and leaves the filter [undefined] active. *)
Theorem undefined_filter_stays (classes : list string) (st : state) :
  existsb (String.eqb "filter-tag") classes = true ->
  existsb (String.eqb "btn-close") classes = false ->
  In None (activeFilters (handle (Click (mkElement classes None None)) st))
  /\ markup_elements (filter_chip None)
     = Some [chip_span; close_button "undefined"]
  /\ (forall st', In None (activeFilters st') ->
        dataset_filter (close_button "undefined") = Some "undefined"
        /\ In None
              (activeFilters
                 (handle (Click (close_button "undefined")) st'))).
Proof.
  intros H1 H2. split; [|split].
  - cbn [handle]. rewrite onDocumentClick_filter_tag by assumption.
    rewrite addFilter_activeFilters. cbn [dataset_tag]. unfold set_add.
    destruct (set_has filter_same None (activeFilters st)) eqn:H.
    + now apply set_has_filter.
    + apply in_or_app. right. now left.
  - reflexivity.
  - intros st' Hin. split; [reflexivity|].
    cbn [handle]. rewrite onDocumentClick_btn_close by reflexivity.
    rewrite removeFilter_activeFilters. unfold set_delete.
    apply filter_In. split; [assumption | reflexivity].
Qed.

(** ** The card *)

(** X22.  The card of a renderable record holds one badge for each of its
    tags, in the order role, level, languages, tools, and holds that row of
    badges twice. *)
Theorem card_holds_the_badges_twice (job : value) :
  renderable job = true ->
  exists badges head middle tail,
    Forall2 (fun tag badge => tag_badge tag = Ok badge)
            (derived_tags job) badges
    /\ createJobCard job
       = Ok (head ++ join_empty badges ++ middle ++ join_empty badges ++ tail).
Proof.
  intros H. destruct (renderable_inv job H) as (Hj & Htags & Hf).
  destruct (has_tag_lists_inv job Hj) as (props & _ & _ & -> & _ & _).
  unfold createJobCard. rewrite (job_tags_derived _ Hj). cbn [rbind].
  destruct (map_result_defined tag_badge (derived_tags (VObj props)))
    as (badges & Hall & ->).
  { eapply Forall_impl; [|exact Htags]. intros v. apply tag_badge_scalar. }
  cbn [rbind].
  destruct (interpolate_scalar props "logo") as [logo ->];
    [apply Hf; simpl; tauto|].
  destruct (interpolate_scalar props "company") as [company ->];
    [apply Hf; simpl; tauto|].
  rewrite !get_field_object.
  destruct (interpolate_scalar props "position") as [position ->];
    [apply Hf; simpl; tauto|].
  destruct (interpolate_scalar props "postedAt") as [postedAt ->];
    [apply Hf; simpl; tauto|].
  destruct (interpolate_scalar props "contract") as [contract ->];
    [apply Hf; simpl; tauto|].
  destruct (interpolate_scalar props "location") as [location ->];
    [apply Hf; simpl; tauto|].
  cbn [rbind].
  exists badges.
  exists (nl ++
      lit "        <div class='card mb-4 job-card'>" ++ nl ++
      "        " ++ nl ++
      lit "            <div class='card-body'>" ++ nl ++
      lit "                <div class='d-flex align-items-center head mb-3'>" ++ nl ++
      lit "                <img src='" ++ logo ++ lit "' alt='" ++ company ++
      lit " logo' class='me-3' width='50' height='50'>" ++ nl ++
      lit "                    <h5 class='card-title'>" ++ company ++ "</h5>" ++ nl ++
      "                    " ++
      (if truthy (field (VObj props) "new") then new_badge else "") ++ " " ++ nl ++
      "                    " ++
      (if truthy (field (VObj props) "featured") then featured_badge else "") ++ nl ++
      "                </div>" ++ nl ++
      lit "                <div class='d-flex jobs'>" ++ nl ++
      lit "                <h4 class='heads'>" ++ position ++ "</h4> " ++ nl ++
      lit "                <div class='tools'>").
  exists ("</div>" ++ nl ++
      "                </div>" ++ nl ++
      lit "                <p class='text-muted mute'>" ++ postedAt ++
      " " ++ middle_dot ++ " " ++ contract ++
      " " ++ middle_dot ++ " " ++ location ++ "</p>" ++ nl ++
      "            </div>" ++ nl ++
      lit "                <div class='bottom'>" ++ nl ++
      "                <hr>" ++ nl ++
      "                <div>").
  exists ("</div>" ++ nl ++
      "                </div>" ++ nl ++
      "        </div>" ++ nl ++
      "    ").
  split; [exact Hall|]. f_equal. rewrite !append_assoc. reflexivity.
Qed.

End JobBoard.

(** * The sample page

    The general statements above, at the sample document, with naturals
    for numbers. *)

(** The scenario of the specification: [Frontend] keeps the first job,
    [Frontend] and [Senior] keep none, [Senior] alone keeps the second. *)
Example scenario_filters :
  filteredJobs (VArr (sample_jobs (number:=nat))) [Some "Frontend"]
  = Ok [frontend_job]
  /\ filteredJobs (VArr (sample_jobs (number:=nat)))
                  [Some "Frontend"; Some "Senior"]
     = Ok []
  /\ filteredJobs (VArr (sample_jobs (number:=nat))) [Some "Senior"]
     = Ok [backend_job].
Proof. repeat split; reflexivity. Qed.

Example scenario_clicks :
  let tag t := mkElement ["badge"; "tag"; "filter-tag"] (Some t) None in
  let close t := mkElement ["btn-close"; "close"; "btn-close-white"] None (Some t) in
  let st1 := handle (Click (tag "Frontend")) (sample_loaded (number:=nat)) in
  let st2 := handle (Click (tag "Senior")) st1 in
  let st3 := handle (Click (close "Frontend")) st2 in
  activeFilters st1 = [Some "Frontend"]
  /\ activeFilters st2 = [Some "Frontend"; Some "Senior"]
  /\ jobListings_innerHTML st2 = ""
  /\ activeFilters st3 = [Some "Senior"]
  /\ Ok (jobListings_innerHTML st3) = createJobCard backend_job.
Proof. vm_compute. repeat split; reflexivity. Qed.

Lemma filteredJobs_matching_sublist_witness :
  Forall (fun job => has_tag_lists job = true) (sample_jobs (number:=nat))
  /\ exists keep : value nat -> bool,
       (forall job, keep job = true <-> matches_all [Some "Frontend"] job)
       /\ ([Some "Frontend"] = [] -> forall job, keep job = true)
       /\ filteredJobs (VArr sample_jobs) [Some "Frontend"]
          = Ok (List.filter keep sample_jobs).
Proof.
  assert (H : Forall (fun job => has_tag_lists job = true)
                     (sample_jobs (number:=nat)))
    by (repeat constructor).
  split; [exact H|].
  exact (filteredJobs_matching_sublist sample_jobs [Some "Frontend"] H).
Defined.

(** C2, as the specification states it, fails: a record without
    [languages] makes [createJobCard] and the filter callback raise, and an
    absent text field is printed as [undefined], not left out. *)
Lemma absent_languages_raise :
  createJobCard (job_without_languages (number:=nat)) = Throw TypeError
  /\ job_passes [Some "Frontend"] (job_without_languages (number:=nat))
     = Throw TypeError
  /\ ~ (exists html,
          createJobCard (job_without_languages (number:=nat)) = Ok html)
  /\ interpolate (job_without_scalars (number:=nat)) "company"
     = Ok "undefined".
Proof.
  repeat split; try reflexivity.
  intros [html H]. discriminate H.
Qed.

Lemma absent_fields_witness :
  renderable (job_without_scalars (number:=nat)) = true
  /\ (exists html, createJobCard (job_without_scalars (number:=nat)) = Ok html)
  /\ job_passes [Some "Frontend"] (job_without_scalars (number:=nat)) = Ok true
  /\ field (job_without_languages (number:=nat)) "languages" = VUndef
  /\ createJobCard (job_without_languages (number:=nat)) = Throw TypeError.
Proof.
  assert (H : renderable (job_without_scalars (number:=nat)) = true)
    by reflexivity.
  assert (A : field (job_without_languages (number:=nat)) "languages" = VUndef)
    by reflexivity.
  split; [exact H|]. split; [|split; [|split]].
  - exact (proj1 (proj1 (absent_fields job_without_scalars [Some "Frontend"]) H)).
  - exact (proj1 (proj2 (proj1 (absent_fields job_without_scalars
                                              [Some "Frontend"]) H))).
  - exact A.
  - exact (proj1 (proj2 (absent_fields job_without_languages [Some "Frontend"])
                        (or_introl A))).
Defined.

Lemma fetchJobs_failure_witness :
  fetch_fails (FetchResponse false (JsonParsed (VNull (number:=nat))))
              (Error "Failed to load jobs")
  /\ outcome (fetchJobs (FetchResponse false (JsonParsed VNull)))
             (initial_state "" "" "") = Ok tt
  /\ console (exec (fetchJobs (FetchResponse false (JsonParsed VNull)))
                   (initial_state (number:=nat) "" "" ""))
     = [("Error fetching jobs:", Error "Failed to load jobs")]
  /\ jobs (exec (fetchJobs (FetchResponse false (JsonParsed VNull)))
                (initial_state (number:=nat) "" "" ""))
     = VArr [].
Proof.
  assert (H : fetch_fails (FetchResponse false (JsonParsed (VNull (number:=nat))))
                          (Error "Failed to load jobs"))
    by constructor.
  pose proof (fetchJobs_failure _ _ (initial_state (number:=nat) "" "" "") H)
    as (Ho & Hc & _ & Hj & _).
  split; [exact H|]. split; [exact Ho|]. split; [exact Hc|].
  exact (Hj eq_refl).
Defined.

Lemma clearFilters_shows_all_witness :
  jobs (sample_filtered (number:=nat)) = VArr sample_jobs
  /\ Forall (fun job => renderable job = true) (sample_jobs (number:=nat))
  /\ activeFilters (sample_filtered (number:=nat)) = [Some "Frontend"]
  /\ activeFilters (exec clearFilters (sample_filtered (number:=nat))) = []
  /\ filterBar_display (exec clearFilters (sample_filtered (number:=nat)))
     = "none"
  /\ outcome clearFilters (sample_filtered (number:=nat)) = Ok tt
  /\ exists cards,
       Forall2 (fun job card => createJobCard job = Ok card)
               (sample_jobs (number:=nat)) cards
       /\ jobListings_innerHTML (exec clearFilters sample_filtered)
          = join_empty cards.
Proof.
  assert (Hj : jobs (sample_filtered (number:=nat)) = VArr sample_jobs)
    by reflexivity.
  assert (Hr : Forall (fun job => renderable job = true)
                      (sample_jobs (number:=nat)))
    by (repeat constructor).
  destruct (clearFilters_shows_all (sample_filtered (number:=nat)))
    as (Ha & Hd & Hall).
  destruct (Hall sample_jobs Hj Hr) as (Ho & _ & Hc).
  repeat (split; [first [exact Hj | exact Hr | reflexivity | exact Ha
                        | exact Hd | exact Ho] |]).
  exact Hc.
Defined.



Lemma addFilter_present_witness :
  In (Some "Frontend") (activeFilters (sample_filtered (number:=nat)))
  /\ in_sync (sample_filtered (number:=nat))
  /\ exec (addFilter (Some "Frontend")) (sample_filtered (number:=nat))
     = sample_filtered.
Proof.
  assert (Hin : In (Some "Frontend")
                   (activeFilters (sample_filtered (number:=nat))))
    by (left; reflexivity).
  assert (Hs : in_sync (sample_filtered (number:=nat)))
    by (vm_compute; reflexivity).
  split; [exact Hin|]. split; [exact Hs|].
  exact (proj2 (proj2 (addFilter_present (Some "Frontend") sample_filtered Hin))
               Hs).
Defined.

Lemma removeFilter_absent_witness :
  ~ In (Some "Senior") (activeFilters (sample_filtered (number:=nat)))
  /\ reachable (sample_filtered (number:=nat))
  /\ activeFilters (sample_filtered (number:=nat)) <> []
  /\ exec (removeFilter (Some "Senior")) (sample_filtered (number:=nat))
     = sample_filtered.
Proof.
  assert (Hnin : ~ In (Some "Senior")
                     (activeFilters (sample_filtered (number:=nat))))
    by (intros [H|[]]; discriminate H).
  assert (Hr : reachable (sample_filtered (number:=nat))).
  { change (reachable
              (handle (Click (mkElement ["filter-tag"] (Some "Frontend") None))
                 (handle (Loaded (FetchResponse true
                                    (JsonParsed (VArr (sample_jobs (number:=nat))))))
                         (initial_state "" "" "")))).
    apply reachable_step, reachable_step, reachable_initial. }
  assert (HF : activeFilters (sample_filtered (number:=nat)) <> [])
    by discriminate.
  split; [exact Hnin|]. split; [exact Hr|]. split; [exact HF|].
  exact (proj1 (proj2 (proj2 (proj2
           (removeFilter_absent (Some "Senior") sample_filtered Hnin))))
           Hr HF).
Defined.

(** C8, as the specification states it, fails: on the page the script
    reaches once the sample document has loaded, no filter is active and
    the bar's [display] is as the page's markup left it; removing the
    absent filter [Senior] sets it to [none].  On a page that has not
    loaded, the same removal replaces the listing the markup came with by
    the empty text. *)
Lemma removeFilter_absent_rewrites_page :
  reachable (sample_loaded (number:=nat))
  /\ ~ In (Some "Senior") (activeFilters (sample_loaded (number:=nat)))
  /\ filterBar_display (sample_loaded (number:=nat)) = ""
  /\ filterBar_display
       (exec (removeFilter (Some "Senior")) (sample_loaded (number:=nat)))
     = "none"
  /\ exec (removeFilter (Some "Senior")) (sample_loaded (number:=nat))
     <> sample_loaded
  /\ reachable (initial_state (number:=nat) "Loading" "" "")
  /\ ~ In (Some "Senior")
          (activeFilters (initial_state (number:=nat) "Loading" "" ""))
  /\ jobListings_innerHTML
       (exec (removeFilter (Some "Senior"))
             (initial_state (number:=nat) "Loading" "" ""))
     = "".
Proof.
  split.
  { change (reachable
              (handle (Loaded (FetchResponse true
                                 (JsonParsed (VArr (sample_jobs (number:=nat))))))
                      (initial_state "" "" ""))).
    apply reachable_step, reachable_initial. }
  split; [intros []|]. split; [reflexivity|]. split; [reflexivity|].
  split.
  { intros H. apply (f_equal filterBar_display) in H. discriminate H. }
  split; [apply reachable_initial|]. split; [intros []|]. reflexivity.
Qed.



(** ** The further properties at the sample page *)

Lemma fetchJobs_success_witness :
  Forall (fun job => renderable job = true) (sample_jobs (number:=nat))
  /\ jobs (exec (fetchJobs (FetchResponse true (JsonParsed (VArr sample_jobs))))
                (initial_state (number:=nat) "" "" ""))
     = VArr sample_jobs
  /\ console (exec (fetchJobs (FetchResponse true
                                 (JsonParsed (VArr sample_jobs))))
                   (initial_state (number:=nat) "" "" ""))
     = [].
Proof.
  assert (H : Forall (fun job => renderable job = true)
                     (sample_jobs (number:=nat)))
    by (repeat constructor).
  destruct (fetchJobs_success sample_jobs (initial_state "" "" "") H)
    as (_ & Hj & Hc & _).
  split; [exact H|]. split; [exact Hj | exact Hc].
Defined.

Lemma fetchJobs_stores_any_document_witness :
  is_array (VObj (number:=nat) []) = false
  /\ jobs (exec (fetchJobs (FetchResponse true (JsonParsed (VObj []))))
                (initial_state (number:=nat) "" "" ""))
     = VObj []
  /\ console (exec (fetchJobs (FetchResponse true (JsonParsed (VObj []))))
                   (initial_state (number:=nat) "" "" ""))
     = [("Error fetching jobs:", TypeError)].
Proof.
  assert (H : is_array (VObj (number:=nat) []) = false) by reflexivity.
  destruct (fetchJobs_stores_any_document (VObj []) (initial_state "" "" ""))
    as (Hj & Hrest).
  destruct (Hrest H) as (_ & Hc & _).
  split; [exact H|]. split; [exact Hj | exact Hc].
Defined.

Lemma renderJobs_raises_before_writing_witness :
  outcome renderJobs (sample_broken (number:=nat)) = Throw TypeError
  /\ exec renderJobs (sample_broken (number:=nat)) = sample_broken.
Proof.
  assert (H : outcome renderJobs (sample_broken (number:=nat)) = Throw TypeError)
    by reflexivity.
  split; [exact H|].
  exact (proj2 (renderJobs_raises_before_writing sample_broken TypeError H)).
Defined.

Lemma record_without_list_blocks_render_witness :
  jobs (sample_broken (number:=nat)) = VArr [frontend_job; job_without_languages]
  /\ In (job_without_languages (number:=nat))
        [frontend_job; job_without_languages]
  /\ field (job_without_languages (number:=nat)) "languages" = VUndef
  /\ outcome renderJobs (sample_broken (number:=nat)) = Throw TypeError.
Proof.
  assert (Hj : jobs (sample_broken (number:=nat))
               = VArr [frontend_job; job_without_languages]) by reflexivity.
  assert (Hin : In (job_without_languages (number:=nat))
                   [frontend_job; job_without_languages])
    by (right; left; reflexivity).
  assert (Hb : field (job_without_languages (number:=nat)) "languages" = VUndef)
    by reflexivity.
  split; [exact Hj|]. split; [exact Hin|]. split; [exact Hb|].
  exact (proj1 (record_without_list_blocks_render
                  sample_broken _ _ Hj Hin (or_introl Hb))).
Defined.

Lemma filters_order_irrelevant_witness :
  (forall f, In f [Some "Frontend"; Some "Junior"]
             <-> In f [Some "Junior"; Some "Frontend"])
  /\ filteredJobs (VArr (sample_jobs (number:=nat)))
                  [Some "Frontend"; Some "Junior"]
     = filteredJobs (VArr sample_jobs) [Some "Junior"; Some "Frontend"].
Proof.
  assert (H : forall f : filter,
             In f [Some "Frontend"; Some "Junior"]
             <-> In f [Some "Junior"; Some "Frontend"])
    by (intros f; simpl; tauto).
  split; [exact H|].
  exact (proj1 (filters_order_irrelevant (VArr (sample_jobs (number:=nat)))
                                         _ _ H)).
Defined.

Lemma adding_a_filter_narrows_witness :
  Forall (fun job => has_tag_lists job = true) (sample_jobs (number:=nat))
  /\ exists before,
       filteredJobs (VArr (sample_jobs (number:=nat))) [Some "Junior"]
       = Ok before
       /\ filteredJobs (VArr sample_jobs)
                       (set_add filter_same (Some "CSS") [Some "Junior"])
          = Ok (List.filter (has_tag (Some "CSS")) before)
       /\ forall job, has_tag (Some "CSS") job = true
                      <-> In (filter_value (Some "CSS")) (derived_tags job).
Proof.
  assert (H : Forall (fun job => has_tag_lists job = true)
                     (sample_jobs (number:=nat)))
    by (repeat constructor).
  split; [exact H|].
  exact (adding_a_filter_narrows sample_jobs [Some "Junior"] (Some "CSS") H).
Defined.

Lemma own_tag_keeps_job_witness :
  Forall (fun job => has_tag_lists job = true) (sample_jobs (number:=nat))
  /\ filteredJobs (VArr (sample_jobs (number:=nat))) [Some "Frontend"]
     = Ok [frontend_job]
  /\ In (frontend_job (number:=nat)) [frontend_job]
  /\ In (filter_value (Some "HTML")) (derived_tags (frontend_job (number:=nat)))
  /\ exists after,
       filteredJobs (VArr (sample_jobs (number:=nat)))
                    (set_add filter_same (Some "HTML") [Some "Frontend"])
       = Ok after
       /\ In frontend_job after.
Proof.
  assert (H : Forall (fun job => has_tag_lists job = true)
                     (sample_jobs (number:=nat)))
    by (repeat constructor).
  assert (Hb : filteredJobs (VArr (sample_jobs (number:=nat))) [Some "Frontend"]
               = Ok [frontend_job]) by reflexivity.
  assert (Hin : In (frontend_job (number:=nat)) [frontend_job])
    by (left; reflexivity).
  assert (Ht : In (filter_value (Some "HTML"))
                  (derived_tags (frontend_job (number:=nat))))
    by (right; right; left; reflexivity).
  split; [exact H|]. split; [exact Hb|]. split; [exact Hin|].
  split; [exact Ht|].
  exact (own_tag_keeps_job sample_jobs [frontend_job] [Some "Frontend"]
                           (Some "HTML") frontend_job H Hb Hin Ht).
Defined.

Lemma non_text_tags_never_match_witness :
  has_tag_lists (job_with_flags (number:=nat)) = true
  /\ [Some "true"] <> []
  /\ forallb never_a_filter (derived_tags (job_with_flags (number:=nat))) = true
  /\ job_passes [Some "true"] (job_with_flags (number:=nat)) = Ok false.
Proof.
  assert (H1 : has_tag_lists (job_with_flags (number:=nat)) = true)
    by reflexivity.
  assert (H2 : [Some "true"] <> ([] : list filter)) by discriminate.
  assert (H3 : forallb never_a_filter
                       (derived_tags (job_with_flags (number:=nat))) = true)
    by reflexivity.
  split; [exact H1|]. split; [exact H2|]. split; [exact H3|].
  exact (non_text_tags_never_match [Some "true"] job_with_flags H1 H2 H3).
Defined.

Lemma filters_never_repeat_witness :
  reachable (sample_reached (number:=nat))
  /\ NoDup (activeFilters (sample_reached (number:=nat))).
Proof.
  assert (H : reachable (sample_reached (number:=nat)))
    by (unfold sample_reached; apply reachable_step, reachable_step,
        reachable_initial).
  split; [exact H|]. exact (filters_never_repeat sample_reached H).
Defined.

Lemma reachable_page_shows_state_witness :
  reachable (sample_reached (number:=nat))
  /\ activeFilters (sample_reached (number:=nat)) <> []
  /\ filterBar_display (sample_reached (number:=nat)) = "block"
  /\ filterTags_innerHTML (sample_reached (number:=nat))
     = join_empty (map filter_chip (activeFilters (sample_reached (number:=nat)))).
Proof.
  assert (H : reachable (sample_reached (number:=nat)))
    by (unfold sample_reached; apply reachable_step, reachable_step,
        reachable_initial).
  assert (HF : activeFilters (sample_reached (number:=nat)) <> [])
    by (vm_compute; discriminate).
  destruct (reachable_page_shows_state sample_reached H HF) as (Hd & Ht & _).
  split; [exact H|]. split; [exact HF|]. split; [exact Hd | exact Ht].
Defined.

Lemma addFilter_appends_witness :
  ~ In (Some "Senior") (activeFilters (sample_filtered (number:=nat)))
  /\ activeFilters (exec (addFilter (Some "Senior"))
                         (sample_filtered (number:=nat)))
     = (activeFilters sample_filtered ++ [Some "Senior"])%list.
Proof.
  assert (H : ~ In (Some "Senior")
                  (activeFilters (sample_filtered (number:=nat))))
    by (intros [H|[]]; discriminate H).
  split; [exact H|].
  exact (proj1 (addFilter_appends (Some "Senior") sample_filtered H)).
Defined.

Lemma removeFilter_removes_witness :
  Some "Frontend" <> Some "Senior"
  /\ ~ In (Some "Senior")
          (activeFilters (exec (removeFilter (Some "Senior"))
                               (sample_filtered (number:=nat))))
  /\ (In (Some "Frontend")
         (activeFilters (exec (removeFilter (Some "Senior"))
                              (sample_filtered (number:=nat))))
      <-> In (Some "Frontend") (activeFilters (sample_filtered (number:=nat)))).
Proof.
  assert (H : Some "Frontend" <> Some "Senior") by discriminate.
  destruct (removeFilter_removes (Some "Senior") (sample_filtered (number:=nat)))
    as [Hn Hk].
  split; [exact H|]. split; [exact Hn | exact (Hk _ H)].
Defined.

Lemma add_then_remove_restores_witness :
  in_sync (sample_filtered (number:=nat))
  /\ activeFilters (sample_filtered (number:=nat)) <> []
  /\ ~ In (Some "CSS") (activeFilters (sample_filtered (number:=nat)))
  /\ outcome rerender (sample_filtered (number:=nat)) = Ok tt
  /\ exec (removeFilter (Some "CSS"))
          (exec (addFilter (Some "CSS")) (sample_filtered (number:=nat)))
     = sample_filtered.
Proof.
  assert (Hs : in_sync (sample_filtered (number:=nat)))
    by (vm_compute; reflexivity).
  assert (HF : activeFilters (sample_filtered (number:=nat)) <> [])
    by discriminate.
  assert (Hn : ~ In (Some "CSS") (activeFilters (sample_filtered (number:=nat))))
    by (intros [H|[]]; discriminate H).
  assert (Ho : outcome rerender (sample_filtered (number:=nat)) = Ok tt)
    by reflexivity.
  split; [exact Hs|]. split; [exact HF|]. split; [exact Hn|].
  split; [exact Ho|].
  exact (add_then_remove_restores (Some "CSS") sample_filtered Hs HF Hn Ho).
Defined.

Lemma removing_the_last_filter_clears_witness :
  activeFilters (sample_filtered (number:=nat)) = [Some "Frontend"]
  /\ removeFilter (Some "Frontend") (sample_filtered (number:=nat))
     = clearFilters sample_filtered.
Proof.
  assert (H : activeFilters (sample_filtered (number:=nat)) = [Some "Frontend"])
    by reflexivity.
  split; [exact H|].
  exact (removing_the_last_filter_clears (Some "Frontend") sample_filtered H).
Defined.

Lemma clearFilters_leaves_chips_witness :
  in_sync (sample_filtered (number:=nat))
  /\ activeFilters (sample_filtered (number:=nat)) <> []
  /\ filterBar_display (exec clearFilters (sample_filtered (number:=nat)))
     = "none"
  /\ filterTags_innerHTML (exec clearFilters (sample_filtered (number:=nat)))
     = join_empty (map filter_chip (activeFilters (sample_filtered (number:=nat)))).
Proof.
  assert (Hs : in_sync (sample_filtered (number:=nat)))
    by (vm_compute; reflexivity).
  assert (HF : activeFilters (sample_filtered (number:=nat)) <> [])
    by discriminate.
  split; [exact Hs|]. split; [exact HF|].
  exact (proj2 (clearFilters_leaves_chips sample_filtered) Hs HF).
Defined.



Lemma undefined_filter_stays_witness :
  existsb (String.eqb "filter-tag") ["filter-tag"] = true
  /\ existsb (String.eqb "btn-close") ["filter-tag"] = false
  /\ In None
        (activeFilters (handle (Click (mkElement ["filter-tag"] None None))
                               (sample_loaded (number:=nat))))
  /\ In None
        (activeFilters
           (handle (Click (close_button "undefined"))
                   (undefined_page (number:=nat)))).
Proof.
  destruct (undefined_filter_stays ["filter-tag"] (sample_loaded (number:=nat))
                                   eq_refl eq_refl) as (Hadd & _ & Hstay).
  split; [reflexivity|]. split; [reflexivity|]. split; [exact Hadd|].
  exact (proj2 (Hstay undefined_page (or_introl eq_refl))).
Defined.

Lemma card_holds_the_badges_twice_witness :
  renderable (frontend_job (number:=nat)) = true
  /\ exists badges head middle tail,
       Forall2 (fun tag badge => tag_badge tag = Ok badge)
               (derived_tags (frontend_job (number:=nat))) badges
       /\ createJobCard frontend_job
          = Ok (head ++ join_empty badges ++ middle ++ join_empty badges
                ++ tail).
Proof.
  split; [reflexivity|].
  exact (card_holds_the_badges_twice frontend_job eq_refl).
Defined.
